(** * Space Opera Data Trawler: subject filter, classifier, aggregator

    A shallow embedding of [analyze_space_opera.py] and the properties of
    its subject-normalisation and aggregation pipeline.

    Python [str] values are sequences of Unicode code points, modelled as
    [list N].  Python [int] years are unbounded integers, modelled as [Z].
    A [dict] keeps its keys in insertion order, which the chart's stable
    sort observes, so dictionaries are association lists in insertion
    order. *)

From Stdlib Require Import List ZArith NArith QArith Lia Bool String Ascii.
From Stdlib Require Import Permutation Sorted.
Import ListNotations.

Local Close Scope Q_scope.
Local Open Scope N_scope.

(** ** Python strings *)

Definition code_point := N.
Definition pystr := list code_point.

(** An ASCII literal of the source as a sequence of code points. *)
Definition str (s : string) : pystr :=
  map N_of_ascii (list_ascii_of_string s).

Definition in_range (lo hi c : N) : bool := (lo <=? c) && (c <=? hi).

(** [str.lower()], one code point at a time.  The table is exact on Basic
    Latin and Latin-1; beyond them it lists U+0130, U+0178, U+039C and
    U+212A (Kelvin sign) and leaves every other code point unchanged. *)
Definition lower_cp (c : code_point) : pystr :=
  if in_range 65 90 c then [c + 32]
  else if in_range 192 222 c && negb (c =? 215) then [c + 32]
  else if c =? 304 then [105; 775]
  else if c =? 376 then [255]
  else if c =? 924 then [956]
  else if c =? 8490 then [107]
  else [c].

(** [str.upper()], one code point at a time.  Exact on Basic Latin and
    Latin-1 (U+00DF becomes "SS", U+00B5 becomes U+039C, U+00FF becomes
    U+0178); beyond them it lists U+0131 (dotless i), U+017F (long s) and
    U+03BC and leaves every other code point unchanged. *)
Definition upper_cp (c : code_point) : pystr :=
  if in_range 97 122 c then [c - 32]
  else if c =? 181 then [924]
  else if c =? 223 then [83; 83]
  else if in_range 224 254 c && negb (c =? 247) then [c - 32]
  else if c =? 255 then [376]
  else if c =? 305 then [73]
  else if c =? 383 then [83]
  else if c =? 956 then [924]
  else [c].

Definition lower (s : pystr) : pystr := flat_map lower_cp s.
Definition upper (s : pystr) : pystr := flat_map upper_cp s.

Fixpoint startswith (pat s : pystr) : bool :=
  match pat, s with
  | [], _ => true
  | _ :: _, [] => false
  | p :: pat', c :: s' => (p =? c) && startswith pat' s'
  end.

(** [pat in s]: substring containment. *)
Fixpoint contains (pat s : pystr) : bool :=
  startswith pat s ||
  match s with
  | [] => false
  | _ :: s' => contains pat s'
  end.

(** Left-to-right scan of [s.replace(old, "")]: [skip] counts the code
    points of a matched occurrence that are still to be dropped. *)
Fixpoint replace_from (old : pystr) (skip : nat) (s : pystr) : pystr :=
  match s with
  | [] => []
  | c :: s' =>
      match skip with
      | S k => replace_from old k s'
      | O =>
          if startswith old s
          then replace_from old (Nat.pred (List.length old)) s'
          else c :: replace_from old 0 s'
      end
  end.

(** [s.replace(old, "")]: every non-overlapping occurrence of [old],
    found from the left, is deleted; an empty [old] deletes nothing. *)
Definition replace (old s : pystr) : pystr :=
  match old with
  | [] => s
  | _ :: _ => replace_from old 0 s
  end.

(** [string.punctuation]: the 32 ASCII punctuation characters, that is
    code points 33-47, 58-64, 91-96 and 123-126. *)
Definition is_punctuation (c : code_point) : bool :=
  in_range 33 47 c || in_range 58 64 c || in_range 91 96 c
  || in_range 123 126 c.

(** [s.translate(str.maketrans('', '', string.punctuation))]. *)
Definition remove_punctuation (s : pystr) : pystr :=
  filter (fun c => negb (is_punctuation c)) s.

(** The code points [str.strip()] removes: those with [str.isspace]. *)
Definition is_space (c : code_point) : bool :=
  in_range 9 13 c || in_range 28 32 c || (c =? 133) || (c =? 160)
  || (c =? 5760) || in_range 8192 8202 c || (c =? 8232) || (c =? 8233)
  || (c =? 8239) || (c =? 8287) || (c =? 12288).

Fixpoint lstrip (s : pystr) : pystr :=
  match s with
  | [] => []
  | c :: s' => if is_space c then lstrip s' else s
  end.

Definition rstrip (s : pystr) : pystr := rev (lstrip (rev s)).

Definition strip (s : pystr) : pystr := rstrip (lstrip s).

Definition is_empty (s : pystr) : bool :=
  match s with [] => true | _ :: _ => false end.

Fixpoint pystr_eqb (a b : pystr) : bool :=
  match a, b with
  | [], [] => true
  | x :: a', y :: b' => (x =? y) && pystr_eqb a' b'
  | _, _ => false
  end.

(** ** Subject filter *)

(** The word list of the last rule, in the order the loop visits it. *)
Definition generic_words : list pystr :=
  [str "science fiction"; str "science-fiction"; str "fiction";
   str "space opera"; str "general"].

Definition FICTION_TAG : pystr := str "Fiction in English, 1900- Texts".

(** [should_remove_subject]: the rules in source order, each an early
    [return True]. *)
Definition should_remove_subject (subject : pystr) : bool :=
  let subject_lower := lower subject in
  if contains (str "(fictitious character)") subject_lower then true
  else if contains (str "(imaginary place)") subject_lower then true
  else if contains (str "nyt:") subject_lower
          || contains (str "new york times") subject_lower then true
  else if contains (str "hugo award") subject_lower
          || contains (str "hugo_award") subject_lower
          || contains (str "award:") subject_lower then true
  else if contains FICTION_TAG subject_lower then true
  else
    let s := fold_left (fun s word => replace word s) generic_words
                       subject_lower in
    let s := strip (remove_punctuation s) in
    if is_empty s then true else false.

(** ** Records *)

(** One entry of the catalog's ["docs"] array.  A key of the JSON object
    may be missing, which is what [book.get] tests. *)
Record book := {
  title : option pystr;
  subject : option (list pystr);
  first_publish_year : option Z
}.

(** [book.get(key, default)]. *)
Definition get_default {A : Type} (field : option A) (default : A) : A :=
  match field with
  | Some v => v
  | None => default
  end.

(** ** Classifier *)

Definition STAR_WARS_KEYWORD : pystr := str "star wars".

Definition is_star_wars_book (b : book) : bool :=
  let title := lower (get_default (title b) []) in
  let subjects := map lower (get_default (subject b) []) in
  if contains STAR_WARS_KEYWORD title then true
  else existsb (contains STAR_WARS_KEYWORD) subjects.

Inductive Group := primary_franchise | other.

(** The two lists [main] fills: [star_wars_books] and [other_books]. *)
Definition classify (b : book) : Group :=
  if is_star_wars_book b then primary_franchise else other.

(** ** Filtering the subjects of a record *)

Definition filter_subjects (b : book) : list pystr :=
  let subjects := get_default (subject b) [] in
  fold_left
    (fun filtered subject =>
       if negb (should_remove_subject subject)
       then filtered ++ [subject]
       else filtered)
    subjects [].

(** ** Dictionaries in insertion order *)

Section Dict.
Context {V : Type}.

Definition dict := list (pystr * V).

Fixpoint dict_get (d : dict) (k : pystr) : option V :=
  match d with
  | [] => None
  | (k', v) :: d' => if pystr_eqb k' k then Some v else dict_get d' k
  end.

(** [d[k] = v]: an existing key keeps its position, a new key goes
    last. *)
Fixpoint dict_set (d : dict) (k : pystr) (v : V) : dict :=
  match d with
  | [] => [(k, v)]
  | (k', v') :: d' =>
      if pystr_eqb k' k then (k', v) :: d'
      else (k', v') :: dict_set d' k v
  end.

Definition keys (d : dict) : list pystr := map fst d.
End Dict.
Arguments dict : clear implicits.

(** ** Aggregator *)

(** The running tuple of [subject_data]. *)
Module Running.
Record t := { count : nat; years : list Z }.
(** The [defaultdict] factory. *)
Definition default : t := {| count := 0; years := [] |}.
End Running.

(** [subject_data[subject]["count"] += 1] followed by
    [subject_data[subject]["years"].append(year)]. *)
Definition bump (subject_data : dict Running.t) (subject : pystr) (year : Z)
  : dict Running.t :=
  let data := get_default (dict_get subject_data subject) Running.default in
  dict_set subject_data subject
    {| Running.count := S (Running.count data);
       Running.years := Running.years data ++ [year] |}.

(** One iteration of the loop over [books]; [if not year: continue] skips
    a missing year and also the year 0, which Python treats as false. *)
Definition step_book (subject_data : dict Running.t) (b : book)
  : dict Running.t :=
  match first_publish_year b with
  | None => subject_data
  | Some year =>
      if (year =? 0)%Z then subject_data
      else fold_left (fun sd subject => bump sd subject year)
                     (filter_subjects b) subject_data
  end.

Definition collect (books : list book) : dict Running.t :=
  fold_left step_book books [].

(** [min(years)] and [max(years)] raise [ValueError] on an empty list. *)
Definition py_min (l : list Z) : option Z :=
  match l with
  | [] => None
  | y :: l' => Some (fold_left Z.min l' y)
  end.

Definition py_max (l : list Z) : option Z :=
  match l with
  | [] => None
  | y :: l' => Some (fold_left Z.max l' y)
  end.

(** [float(n)] for an integer [n], as the division by [2.0] first
    converts its left operand: the nearest double, ties to the even
    significand of 53 bits, and [None], an [OverflowError], when that
    double would reach 2^1024.  The nearest double of an integer is an
    integer, and it is returned as such. *)
Definition float_of_int (n : Z) : option Z :=
  let a := Z.abs n in
  let shift := (Z.log2 a + 1 - 53)%Z in
  if (shift <=? 0)%Z then Some n
  else
    let q := (a / 2 ^ shift)%Z in
    let rem := (a mod 2 ^ shift)%Z in
    let half := (2 ^ (shift - 1))%Z in
    let m :=
      if (half <? rem)%Z || ((rem =? half)%Z && Z.odd q)
      then (q + 1)%Z else q in
    let v := (m * 2 ^ shift)%Z in
    if (2 ^ 1024 <=? v)%Z then None else Some (Z.sgn n * v)%Z.

(** [n / 2.0] for an integer [n]: the conversion, then a division by
    two, which is exact on a double that is an integer.  The value of
    the resulting double is a rational number. *)
Definition truediv_2 (n : Z) : option Q :=
  match float_of_int n with
  | Some f => Some (Qmake f 2)
  | None => None
  end.

(** An entry of the result.  [avg_year] is a finite float, held as the
    rational number it is equal to. *)
Record SubjectStat := {
  count : nat;
  min_year : Z;
  max_year : Z;
  avg_year : Q
}.

(** One iteration of the loop over [subject_data.items()]; [None] is an
    exception: a [ValueError] of [min] or [max], or the [OverflowError]
    of the division. *)
Definition summarize (result : option (dict SubjectStat))
  (item : pystr * Running.t) : option (dict SubjectStat) :=
  match result with
  | None => None
  | Some res =>
      let (subject, data) := item in
      if (3 <=? Running.count data)%nat then
        let years := Running.years data in
        match py_min years, py_max years with
        | Some mn, Some mx =>
            match truediv_2 (mn + mx) with
            | Some avg =>
                Some (dict_set res subject
                        {| count := Running.count data;
                           min_year := mn;
                           max_year := mx;
                           avg_year := avg |})
            | None => None
            end
        | _, _ => None
        end
      else Some res
  end.

(** [analyze_subjects]; [None] is an exception.  The report it prints
    is not part of the model. *)
Definition analyze_subjects (books : list book)
  : option (dict SubjectStat) :=
  fold_left summarize (collect books) (Some []).

(** ** Presentation *)

Definition avg_leb (a b : pystr * SubjectStat) : bool :=
  Qle_bool (avg_year (snd a)) (avg_year (snd b)).

(** [sorted(items, key=avg_year)] is a stable sort: items with equal
    keys keep their order.  Stable insertion computes the same list. *)
Fixpoint insert_by_avg (x : pystr * SubjectStat)
  (l : list (pystr * SubjectStat)) : list (pystr * SubjectStat) :=
  match l with
  | [] => [x]
  | y :: l' => if avg_leb x y then x :: l else y :: insert_by_avg x l'
  end.

Definition sorted_by_avg (items : list (pystr * SubjectStat))
  : list (pystr * SubjectStat) :=
  fold_right insert_by_avg [] items.

(** What the figure shows: row [i] is the [i]-th element of each list. *)
Record chart := {
  yticklabels : list pystr;
  bars : list (Z * Z);           (* left edge, width *)
  count_labels : list (Z * nat); (* x position, count *)
  chart_title : pystr
}.

Inductive effect :=
| Print (line : pystr)
| SaveFig (filename : pystr) (fig : chart).

Definition create_bar_chart (subject_data : dict SubjectStat)
  (title filename : pystr) : list effect :=
  let sorted_subjects := sorted_by_avg subject_data in
  match sorted_subjects with
  | [] => [Print (str "No subjects to plot for " ++ title)]
  | _ :: _ =>
      let subjects := map fst sorted_subjects in
      let min_years := map (fun s => min_year (snd s)) sorted_subjects in
      let max_years := map (fun s => max_year (snd s)) sorted_subjects in
      let counts := map (fun s => count (snd s)) sorted_subjects in
      [SaveFig filename
         {| yticklabels := subjects;
            bars := map (fun mm => (fst mm, (snd mm - fst mm)%Z))
                        (combine min_years max_years);
            count_labels := map (fun cm => ((snd cm + 1)%Z, fst cm))
                                (combine counts max_years);
            chart_title := title |};
       Print (str "Saved chart to " ++ filename)]
  end.

(** ** Entry point *)

(** The loop of [main] that separates the fetched records into
    [star_wars_books] and [other_books]. *)
Definition split_books (books : list book) : list book * list book :=
  fold_left
    (fun (lists : list book * list book) b =>
       let (star_wars_books, other_books) := lists in
       if is_star_wars_book b
       then (star_wars_books ++ [b], other_books)
       else (star_wars_books, other_books ++ [b]))
    books ([], []).

(** ** Vocabulary of the properties *)

(** Basic Latin text: every code point is below 128. *)
Definition is_ascii (s : pystr) : Prop := Forall (fun c => c < 128) s.

(** [kw] occurs in [x] up to letter case: some substring of [x] has
    [kw] as its lowercase form. *)
Definition icontains (kw x : pystr) : Prop :=
  exists u w v, x = u ++ w ++ v /\ lower w = kw.

(** Text made only of the generic genre phrases in any letter case,
    [string.punctuation] characters and white space. *)
Inductive generic_only : pystr -> Prop :=
| generic_nil : generic_only []
| generic_word w rest :
    In (lower w) generic_words -> generic_only rest ->
    generic_only (w ++ rest)
| generic_punct c rest :
    is_punctuation c = true -> generic_only rest ->
    generic_only (c :: rest)
| generic_space c rest :
    is_space c = true -> generic_only rest -> generic_only (c :: rest).

(** Punctuation and white space: what the last rule discards besides
    the generic words. *)
Definition is_filler (c : code_point) : bool :=
  is_punctuation c || is_space c.

(** Lowercase text made of the words [ws] and of filler. *)
Inductive made_of (ws : list pystr) : pystr -> Prop :=
| made_nil : made_of ws []
| made_word w rest :
    In w ws -> made_of ws rest -> made_of ws (w ++ rest)
| made_filler c rest :
    is_filler c = true -> made_of ws rest -> made_of ws (c :: rest).

(** [old] differs from [t] at a position both have, so [old] starts no
    text that starts with [t]. *)
Fixpoint clash (old t : pystr) : bool :=
  match old, t with
  | o :: old', c :: t' => negb (o =? c) || clash old' t'
  | _, _ => false
  end.

(** [old] clashes with every non-empty suffix of [t]: no occurrence of
    [old] starts within [t], whatever follows. *)
Fixpoint clash_all (old t : pystr) : bool :=
  match t with
  | [] => true
  | _ :: t' => clash old t && clash_all old t'
  end.

(** [old] starts with a code point that is not filler. *)
Definition starts_with_letter (old : pystr) : bool :=
  match old with
  | [] => false
  | o :: _ => negb (is_filler o)
  end.

(** The year a record brings to the aggregation, if any: the guard of
    the loop lets a record through when its year is present and is not
    zero. *)
Definition usable_year (b : book) : option Z :=
  match first_publish_year b with
  | Some year => if (year =? 0)%Z then None else Some year
  | None => None
  end.

(** The record has a publication year. *)
Definition has_year (b : book) : bool :=
  match first_publish_year b with Some _ => true | None => false end.

(** How many times [s] is listed in [l]. *)
Definition occ (s : pystr) (l : list pystr) : nat :=
  List.length (filter (pystr_eqb s) l).

(** The years the records of [books] bring to subject [s], in order:
    one per listing of [s] among the kept tags of a record with a usable
    year. *)
Definition contributions (s : pystr) (books : list book) : list Z :=
  flat_map
    (fun b =>
       match usable_year b with
       | Some year => repeat year (occ s (filter_subjects b))
       | None => []
       end)
    books.

(** How often [s] occurs across the records with a usable year. *)
Definition occurrences (s : pystr) (books : list book) : nat :=
  List.length (contributions s books).

(** The records that bring at least one year to subject [s]. *)
Definition contributing_records (s : pystr) (books : list book)
  : list book :=
  filter
    (fun b =>
       match usable_year b with
       | Some _ => existsb (pystr_eqb s) (filter_subjects b)
       | None => false
       end)
    books.

(** A running tuple after the years [ys] were added to it. *)
Definition extend (o : option Running.t) (ys : list Z)
  : option Running.t :=
  match ys with
  | [] => o
  | _ :: _ =>
      let data := get_default o Running.default in
      Some {| Running.count := Running.count data + List.length ys;
              Running.years := Running.years data ++ ys |}
  end.

(** The statistics of a subject that was listed with the years [ys],
    when they can be computed. *)
Definition summary (ys : list Z) : option SubjectStat :=
  match py_min ys, py_max ys with
  | Some mn, Some mx =>
      match truediv_2 (mn + mx) with
      | Some avg =>
          Some {| count := List.length ys;
                  min_year := mn;
                  max_year := mx;
                  avg_year := avg |}
      | None => None
      end
  | _, _ => None
  end.

(** Every year of the records is below 2^1022 in magnitude, so that no
    sum of two of them leaves the range of a float. *)
Definition modest_years (books : list book) : Prop :=
  forall b y,
    In b books -> first_publish_year b = Some y ->
    (Z.abs y < 2 ^ 1022)%Z.

Definition avg_le (a b : pystr * SubjectStat) : Prop :=
  (avg_year (snd a) <= avg_year (snd b))%Q.

(** The entries whose display score is [q], in order. *)
Definition with_avg (q : Q) (rows : list (pystr * SubjectStat))
  : list (pystr * SubjectStat) :=
  filter (fun r => Qeq_bool (avg_year (snd r)) q) rows.

(** The rows of a chart drawn from [rows], top-down in list order. *)
Definition chart_of (rows : list (pystr * SubjectStat)) (title : pystr)
  : chart :=
  {| yticklabels := map fst rows;
     bars := map (fun r => (min_year (snd r),
                            (max_year (snd r) - min_year (snd r))%Z)) rows;
     count_labels := map (fun r => ((max_year (snd r) + 1)%Z,
                                    count (snd r))) rows;
     chart_title := title |}.

(** A code point that only ever arises in lowercase text as the whole
    image of a code point. *)
Definition single (c : code_point) : Prop :=
  forall d, In c (lower_cp d) -> lower_cp d = [c].

(** A place where lowercase text can be cut without cutting through the
    image of one code point. *)
Definition boundary (a b : pystr) : Prop :=
  a = [] \/ b = []
  \/ (exists a' c, a = a' ++ [c] /\ single c)
  \/ (exists c b', b = c :: b' /\ single c).

(** The group of a record, in the words of the specification. *)
Definition mentions_star_wars (b : book) : Prop :=
  icontains STAR_WARS_KEYWORD (get_default (title b) [])
  \/ exists s, In s (get_default (subject b) [])
               /\ icontains STAR_WARS_KEYWORD s.

(** The markers the first four rules look for. *)
Definition removal_markers : list pystr :=
  [str "(fictitious character)"; str "(imaginary place)"; str "nyt:";
   str "new york times"; str "hugo award"; str "hugo_award";
   str "award:"].

(** The kept tags of the records the loop lets through, in reading
    order. *)
Definition listings (books : list book) : list pystr :=
  flat_map
    (fun b =>
       match usable_year b with
       | Some _ => filter_subjects b
       | None => []
       end)
    books.

(** The distinct elements of [l], each at the place it is first met. *)
Definition note_subject (order : list pystr) (s : pystr) : list pystr :=
  if existsb (pystr_eqb s) order then order else order ++ [s].

Definition first_seen (l : list pystr) : list pystr :=
  fold_left note_subject l [].

(** The record with its title and tags in uppercase. *)
Definition upper_book (b : book) : book :=
  {| title := option_map upper (title b);
     subject := option_map (map upper) (subject b);
     first_publish_year := first_publish_year b |}.

(** The record's title and tags are Basic Latin text. *)
Definition ascii_book (b : book) : Prop :=
  is_ascii (get_default (title b) [])
  /\ Forall is_ascii (get_default (subject b) []).

(** ** Sample records *)

Definition tagged (tags : list pystr) (year : option Z) : book :=
  {| title := None; subject := Some tags; first_publish_year := year |}.

Definition GALACTIC : pystr := str "Galactic empire".

(** Three records tagged alike, and a fourth without a year. *)
Definition trilogy : list book :=
  [tagged [GALACTIC] (Some 1977%Z); tagged [GALACTIC] (Some 1980%Z);
   tagged [GALACTIC] (Some 1983%Z); tagged [GALACTIC] None].

(** Two records, the first listing its tag twice. *)
Definition repeated_tag : list book :=
  [tagged [GALACTIC; GALACTIC] (Some 1977%Z);
   tagged [GALACTIC] (Some 1980%Z)].

(** A record whose year is present and is the integer 0. *)
Definition year_zero : book := tagged [GALACTIC] (Some 0%Z).


(** Three records tagged alike whose year is 2^53 + 1, which the sum of
    two of them cannot hold exactly as a float. *)
Definition past_exact : list book :=
  [tagged [GALACTIC] (Some (2 ^ 53 + 1)%Z);
   tagged [GALACTIC] (Some (2 ^ 53 + 1)%Z);
   tagged [GALACTIC] (Some (2 ^ 53 + 1)%Z)].

Definition thrawn : book :=
  {| title := Some (str "Star Wars: Thrawn"); subject := Some [];
     first_publish_year := None |}.

Definition dune : book :=
  {| title := Some (str "Dune"); subject := Some [str "Space opera"];
     first_publish_year := None |}.

(** A result of two subjects, the later one listed first. *)
Definition two_subjects : dict SubjectStat :=
  [(str "Robots", {| count := 4; min_year := 1990; max_year := 2000;
                     avg_year := Qmake 3990 2 |});
   (GALACTIC, {| count := 3; min_year := 1977; max_year := 1983;
                 avg_year := Qmake 3960 2 |})].

(** * Properties *)

(** ** Strings *)

Ltac case_tests :=
  unfold in_range;
  repeat (match goal with
          | |- context [N.leb ?a ?b] => destruct (N.leb_spec a b)
          | |- context [N.eqb ?a ?b] => destruct (N.eqb_spec a b)
          end; simpl; try lia).

Lemma pystr_eqb_eq (a b : pystr) : pystr_eqb a b = true <-> a = b.
Proof.
  revert b; induction a as [|x a IH]; intros [|y b]; simpl;
    try (split; congruence).
  rewrite andb_true_iff, N.eqb_eq, IH. split.
  - intros [-> ->]; reflexivity.
  - intros H; injection H; auto.
Qed.

Lemma pystr_eqb_refl (a : pystr) : pystr_eqb a a = true.
Proof. apply pystr_eqb_eq; reflexivity. Qed.

Lemma pystr_eqb_neq (a b : pystr) : pystr_eqb a b = false <-> a <> b.
Proof.
  rewrite <- pystr_eqb_eq. destruct (pystr_eqb a b); split; congruence.
Qed.

Lemma lower_app (a b : pystr) : lower (a ++ b) = lower a ++ lower b.
Proof. apply flat_map_app. Qed.

Lemma upper_cp_ascii (c : code_point) :
  c < 128 -> upper_cp c = if in_range 97 122 c then [c - 32] else [c].
Proof. intros Hc. unfold upper_cp. case_tests; reflexivity. Qed.

Lemma lower_cp_ascii (c : code_point) :
  c < 128 -> lower_cp c = if in_range 65 90 c then [c + 32] else [c].
Proof. intros Hc. unfold lower_cp. case_tests; reflexivity. Qed.

(** On Basic Latin, lowering the uppercase form is lowering. *)
Lemma lower_upper_cp (c : code_point) :
  c < 128 -> lower (upper_cp c) = lower_cp c.
Proof.
  intros Hc. rewrite upper_cp_ascii by assumption.
  destruct (in_range 97 122 c) eqn:E; unfold lower; simpl;
    rewrite app_nil_r.
  - unfold in_range in E. apply andb_true_iff in E as [E1 E2].
    apply N.leb_le in E1, E2.
    rewrite !lower_cp_ascii by lia.
    replace (in_range 65 90 (c - 32)) with true by (symmetry; case_tests).
    replace (in_range 65 90 c) with false by (symmetry; case_tests).
    f_equal. lia.
  - reflexivity.
Qed.

Lemma lower_upper_ascii (s : pystr) :
  is_ascii s -> lower (upper s) = lower s.
Proof.
  induction 1 as [|c s Hc _ IH]; [reflexivity|].
  change (upper (c :: s)) with (upper_cp c ++ upper s).
  rewrite lower_app, IH, lower_upper_cp by assumption. reflexivity.
Qed.

(** The filter reads its argument only through [lower]. *)
Lemma should_remove_subject_lower (s s' : pystr) :
  lower s = lower s' -> should_remove_subject s = should_remove_subject s'.
Proof. unfold should_remove_subject. intros ->. reflexivity. Qed.

Lemma contains_head_in (p : code_point) (pat s : pystr) :
  contains (p :: pat) s = true -> In p s.
Proof.
  induction s as [|c s IH]; simpl.
  - discriminate.
  - destruct (p =? c) eqn:E; simpl.
    + apply N.eqb_eq in E. auto.
    + auto.
Qed.

(** No lowercase form holds a capital F. *)
Lemma lower_no_capital_F (s : pystr) : ~ In 70 (lower s).
Proof.
  unfold lower. rewrite in_flat_map. intros (c & _ & H). revert H.
  unfold lower_cp. case_tests; simpl; intuition lia.
Qed.

(** The test of the fifth rule fails on every subject: the tag is
    spelled with capitals and is looked up in lowercased text. *)
Lemma fiction_tag_test_never_holds (s : pystr) :
  contains FICTION_TAG (lower s) = false.
Proof.
  destruct (contains FICTION_TAG (lower s)) eqn:E; [|reflexivity].
  exfalso. apply (lower_no_capital_F s).
  exact (contains_head_in _ _ _ E).
Qed.

(** ** Subject filter *)

(** The sample subjects of the specification. *)
Example remove_space_opera :
  should_remove_subject (str "Space Opera") = true.
Proof. reflexivity. Qed.

Example remove_fictitious_character :
  should_remove_subject (str "Luke Skywalker (Fictitious Character)")
  = true.
Proof. reflexivity. Qed.

Example keep_interstellar_warfare :
  should_remove_subject (str "Interstellar warfare") = false.
Proof. reflexivity. Qed.

(** C1.  The catalog tag "Fiction in English, 1900- Texts" is kept by
    [should_remove_subject], in its own spelling and in lowercase: the
    rule written for it can never fire, and the last rule leaves
    "in english 1900 texts" behind. *)
Theorem fiction_tag_is_kept :
  should_remove_subject (str "Fiction in English, 1900- Texts") = false
  /\ should_remove_subject (str "fiction in english, 1900- texts") = false
  /\ forall s, contains FICTION_TAG (lower s) = false.
Proof.
  split; [reflexivity|]. split; [reflexivity|].
  exact fiction_tag_test_never_holds.
Qed.

(** C6 as stated fails: the long s (U+017F) is already lowercase, and
    its uppercase form is the letter S, so "ſpace opera" is kept while
    its uppercase form "SPACE OPERA" is removed. *)
Lemma long_s_changes_decision :
  upper (383 :: str "pace opera") = str "SPACE OPERA"
  /\ should_remove_subject (383 :: str "pace opera") = false
  /\ should_remove_subject (upper (383 :: str "pace opera")) = true
  /\ should_remove_subject (383 :: str "pace opera")
     <> should_remove_subject (upper (383 :: str "pace opera")).
Proof. repeat split; try reflexivity. vm_compute. discriminate. Qed.

(** C6, amended.  On Basic Latin text the decision of the filter does
    not change when the text is put in uppercase. *)
Theorem should_remove_subject_upper_ascii (s : pystr) :
  is_ascii s ->
  should_remove_subject s = should_remove_subject (upper s).
Proof.
  intros Hs. apply should_remove_subject_lower.
  symmetry. apply lower_upper_ascii. exact Hs.
Qed.

Lemma is_ascii_str_dec (s : pystr) :
  forallb (fun c => c <? 128) s = true -> is_ascii s.
Proof.
  rewrite forallb_forall. intros H. apply Forall_forall.
  intros c Hc. apply N.ltb_lt. auto.
Qed.

Lemma should_remove_subject_upper_ascii_witness :
  is_ascii (str "Hugo Award Winner")
  /\ should_remove_subject (str "Hugo Award Winner")
     = should_remove_subject (upper (str "Hugo Award Winner")).
Proof.
  assert (H : is_ascii (str "Hugo Award Winner"))
    by (apply is_ascii_str_dec; reflexivity).
  split; [exact H|].
  apply (should_remove_subject_upper_ascii _ H).
Defined.

(** ** Filtering the subjects of a record *)

Lemma filter_loop (p : pystr -> bool) (l acc : list pystr) :
  fold_left (fun filtered s => if p s then filtered ++ [s] else filtered)
            l acc
  = acc ++ filter p l.
Proof.
  revert acc; induction l as [|s l IH]; intros acc; simpl.
  - now rewrite app_nil_r.
  - rewrite IH. destruct (p s); [|reflexivity].
    now rewrite <- app_assoc.
Qed.

Lemma filter_subjects_filter (b : book) :
  filter_subjects b
  = filter (fun s => negb (should_remove_subject s))
           (get_default (subject b) []).
Proof.
  unfold filter_subjects.
  exact (filter_loop (fun s => negb (should_remove_subject s)) _ []).
Qed.

(** C8.  [filter_subjects] returns the tags of the record that
    [should_remove_subject] keeps, in their original order; a record
    without a subject list, or with an empty one, gives the empty
    list. *)
Theorem filter_subjects_spec :
  (forall t l y,
      filter_subjects
        {| title := t; subject := Some l; first_publish_year := y |}
      = filter (fun s => negb (should_remove_subject s)) l)
  /\ (forall b,
         filter_subjects b
         = filter (fun s => negb (should_remove_subject s))
                  (get_default (subject b) []))
  /\ (forall t y,
         filter_subjects
           {| title := t; subject := None; first_publish_year := y |} = [])
  /\ (forall t y,
         filter_subjects
           {| title := t; subject := Some []; first_publish_year := y |}
         = []).
Proof.
  split; [|split; [exact filter_subjects_filter|split; reflexivity]].
  intros t l y.
  exact (filter_loop (fun s => negb (should_remove_subject s)) l []).
Qed.

(** A record with a removed tag between two kept ones. *)
Lemma filter_subjects_spec_witness :
  filter_subjects
    {| title := None;
       subject := Some [str "Robots"; str "Science Fiction"; GALACTIC];
       first_publish_year := None |}
  = [str "Robots"; GALACTIC].
Proof.
  rewrite (proj1 filter_subjects_spec). reflexivity.
Defined.

(** ** Dictionaries *)

Section DictFacts.
Context {V : Type}.
Implicit Types (d : dict V) (k : pystr) (v : V).

Lemma dict_get_set_same d k v : dict_get (dict_set d k v) k = Some v.
Proof.
  induction d as [|[k' v'] d IH]; simpl.
  - now rewrite pystr_eqb_refl.
  - destruct (pystr_eqb k' k) eqn:E; simpl; rewrite E; auto.
Qed.

Lemma dict_get_set_other d k k0 v :
  k <> k0 -> dict_get (dict_set d k v) k0 = dict_get d k0.
Proof.
  intros Hne. induction d as [|[k' v'] d IH]; simpl.
  - apply pystr_eqb_neq in Hne. now rewrite Hne.
  - destruct (pystr_eqb k' k) eqn:E; simpl.
    + apply pystr_eqb_eq in E; subst k'.
      apply pystr_eqb_neq in Hne. now rewrite Hne.
    + now rewrite IH.
Qed.

Lemma dict_get_In d k v : dict_get d k = Some v -> In (k, v) d.
Proof.
  induction d as [|[k' v'] d IH]; simpl; [discriminate|].
  destruct (pystr_eqb k' k) eqn:E.
  - apply pystr_eqb_eq in E; subst k'. intros [= ->]. now left.
  - auto.
Qed.

Lemma dict_get_None d k : dict_get d k = None <-> ~ In k (keys d).
Proof.
  induction d as [|[k' v'] d IH]; simpl; [tauto|].
  destruct (pystr_eqb k' k) eqn:E.
  - apply pystr_eqb_eq in E; subst k'. split; [discriminate|tauto].
  - apply pystr_eqb_neq in E. rewrite IH. tauto.
Qed.

Lemma In_dict_get d k v :
  NoDup (keys d) -> In (k, v) d -> dict_get d k = Some v.
Proof.
  induction d as [|[k' v'] d IH]; simpl; [tauto|].
  intros Hnd [H|H].
  - injection H as -> ->. now rewrite pystr_eqb_refl.
  - inversion Hnd as [|? ? Hk' Hnd']; subst.
    destruct (pystr_eqb k' k) eqn:E.
    + apply pystr_eqb_eq in E; subst k'.
      exfalso; apply Hk'. apply (in_map fst) in H. exact H.
    + auto.
Qed.

Lemma keys_dict_set d k v :
  keys (dict_set d k v)
  = match dict_get d k with
    | Some _ => keys d
    | None => keys d ++ [k]
    end.
Proof.
  induction d as [|[k' v'] d IH]; simpl; [reflexivity|].
  destruct (pystr_eqb k' k) eqn:E; simpl; [reflexivity|].
  rewrite IH. now destruct (dict_get d k).
Qed.

Lemma NoDup_keys_dict_set d k v :
  NoDup (keys d) -> NoDup (keys (dict_set d k v)).
Proof.
  intros Hnd. rewrite keys_dict_set.
  destruct (dict_get d k) eqn:E; [exact Hnd|].
  apply dict_get_None in E.
  apply NoDup_rev in Hnd. rewrite <- (rev_involutive (keys d ++ [k])).
  apply NoDup_rev. rewrite rev_app_distr. simpl.
  constructor; [|exact Hnd]. now rewrite <- in_rev.
Qed.

End DictFacts.

(** ** Aggregator: the accumulation loop *)

Lemma extend_app (o : option Running.t) (a b : list Z) :
  extend (extend o a) b = extend o (a ++ b).
Proof.
  destruct a as [|x a]; [reflexivity|].
  destruct b as [|y b]; [now rewrite app_nil_r|].
  simpl. f_equal. f_equal.
  - rewrite length_app. simpl. lia.
  - now rewrite <- app_assoc.
Qed.

Lemma extend_pos (o : option Running.t) (ys : list Z) :
  (1 <= List.length ys)%nat ->
  extend o ys
  = Some {| Running.count :=
              Running.count (get_default o Running.default)
              + List.length ys;
            Running.years :=
              Running.years (get_default o Running.default) ++ ys |}.
Proof. destruct ys; simpl; [lia|reflexivity]. Qed.

Lemma dict_get_bump (sd : dict Running.t) (s s0 : pystr) (year : Z) :
  dict_get (bump sd s year) s0
  = if pystr_eqb s0 s then extend (dict_get sd s0) [year]
    else dict_get sd s0.
Proof.
  unfold bump. destruct (pystr_eqb s0 s) eqn:E.
  - apply pystr_eqb_eq in E; subst s0.
    rewrite dict_get_set_same. simpl. f_equal. f_equal. lia.
  - apply pystr_eqb_neq in E. apply dict_get_set_other. congruence.
Qed.

Lemma NoDup_keys_bump (sd : dict Running.t) (s : pystr) (year : Z) :
  NoDup (keys sd) -> NoDup (keys (bump sd s year)).
Proof. apply NoDup_keys_dict_set. Qed.

Lemma dict_get_bump_all (year : Z) (l : list pystr)
  (sd : dict Running.t) (s0 : pystr) :
  dict_get (fold_left (fun sd s => bump sd s year) l sd) s0
  = extend (dict_get sd s0) (repeat year (occ s0 l)).
Proof.
  revert sd; induction l as [|s l IH]; intros sd; simpl.
  - reflexivity.
  - rewrite IH, dict_get_bump. unfold occ. cbn [filter].
    destruct (pystr_eqb s0 s); cbn [List.length repeat].
    + now rewrite extend_app.
    + reflexivity.
Qed.

Lemma NoDup_keys_bump_all (year : Z) (l : list pystr)
  (sd : dict Running.t) :
  NoDup (keys sd) ->
  NoDup (keys (fold_left (fun sd s => bump sd s year) l sd)).
Proof.
  revert sd; induction l as [|s l IH]; intros sd H; simpl; auto.
  apply IH, NoDup_keys_bump, H.
Qed.

(** What one record does to the running tuple of a subject. *)
Lemma dict_get_step_book (sd : dict Running.t) (b : book) (s : pystr) :
  dict_get (step_book sd b) s
  = extend (dict_get sd s) (contributions s [b]).
Proof.
  unfold step_book, contributions, usable_year. simpl.
  destruct (first_publish_year b) as [year|]; [|reflexivity].
  destruct (year =? 0)%Z; [reflexivity|].
  rewrite app_nil_r. apply dict_get_bump_all.
Qed.

Lemma NoDup_keys_step_book (sd : dict Running.t) (b : book) :
  NoDup (keys sd) -> NoDup (keys (step_book sd b)).
Proof.
  unfold step_book. intros H.
  destruct (first_publish_year b) as [year|]; [|exact H].
  destruct (year =? 0)%Z; [exact H|].
  now apply NoDup_keys_bump_all.
Qed.

Lemma contributions_app (s : pystr) (l1 l2 : list book) :
  contributions s (l1 ++ l2) = contributions s l1 ++ contributions s l2.
Proof. apply flat_map_app. Qed.

Lemma dict_get_steps (books : list book) (sd : dict Running.t)
  (s : pystr) :
  dict_get (fold_left step_book books sd) s
  = extend (dict_get sd s) (contributions s books).
Proof.
  revert sd; induction books as [|b books IH]; intros sd.
  - reflexivity.
  - cbn [fold_left]. rewrite IH, dict_get_step_book, extend_app.
    now rewrite <- contributions_app.
Qed.

Lemma NoDup_keys_steps (books : list book) (sd : dict Running.t) :
  NoDup (keys sd) -> NoDup (keys (fold_left step_book books sd)).
Proof.
  revert sd; induction books as [|b books IH]; intros sd H; simpl; auto.
  apply IH, NoDup_keys_step_book, H.
Qed.

(** The running tuple of a subject once every record was read. *)
Lemma dict_get_collect (books : list book) (s : pystr) :
  dict_get (collect books) s = extend None (contributions s books).
Proof. apply dict_get_steps. Qed.

Lemma NoDup_keys_collect (books : list book) :
  NoDup (keys (collect books)).
Proof. apply NoDup_keys_steps. constructor. Qed.

(** Every running tuple counts its own years, and holds at least one. *)
Lemma collect_entries (books : list book) (s : pystr) (data : Running.t) :
  In (s, data) (collect books) ->
  data = {| Running.count := occurrences s books;
            Running.years := contributions s books |}
  /\ contributions s books <> [].
Proof.
  intros Hin.
  apply (In_dict_get _ _ _ (NoDup_keys_collect books)) in Hin.
  rewrite dict_get_collect in Hin. unfold occurrences.
  destruct (contributions s books) as [|y ys]; [discriminate|].
  simpl in Hin. injection Hin as <-. split; [reflexivity|discriminate].
Qed.

(** ** Conversion to float *)

(** Ties go to the even significand, and the largest double is
    2^1024 - 2^971: half a step above it, the conversion overflows. *)
Example float_of_int_samples :
  float_of_int (2 ^ 53 + 1) = Some (2 ^ 53)%Z
  /\ float_of_int (2 ^ 53 + 3) = Some (2 ^ 53 + 4)%Z
  /\ float_of_int (- (2 ^ 54 + 2)) = Some (- 2 ^ 54)%Z
  /\ float_of_int (2 ^ 1024 - 2 ^ 970 - 1) = Some (2 ^ 1024 - 2 ^ 971)%Z
  /\ float_of_int (2 ^ 1024 - 2 ^ 970) = None.
Proof. repeat split; vm_compute; reflexivity. Qed.

(** An integer of at most 53 bits, and 2^53 itself, is a double. *)
Lemma float_of_int_exact (n : Z) :
  (Z.abs n <= 2 ^ 53)%Z -> float_of_int n = Some n.
Proof.
  intros H. destruct (Z.eq_dec (Z.abs n) (2 ^ 53)) as [E|E].
  - assert (Hn : n = (2 ^ 53)%Z \/ n = (- 2 ^ 53)%Z) by lia.
    destruct Hn as [-> | ->]; reflexivity.
  - unfold float_of_int.
    assert (Hs : (Z.log2 (Z.abs n) + 1 - 53 <= 0)%Z).
    { destruct (Z.eq_dec (Z.abs n) 0) as [E0|E0].
      - rewrite E0. cbn. lia.
      - assert (Z.log2 (Z.abs n) < 53)%Z; [|lia].
        apply Z.log2_lt_pow2; lia. }
    destruct (Z.leb_spec (Z.log2 (Z.abs n) + 1 - 53) 0); [reflexivity|lia].
Qed.

(** An integer below 2^1023 in magnitude converts without overflow. *)
Lemma float_of_int_bounded (n : Z) :
  (Z.abs n < 2 ^ 1023)%Z -> exists f, float_of_int n = Some f.
Proof.
  intros H. unfold float_of_int.
  set (a := Z.abs n) in *. set (s := (Z.log2 a + 1 - 53)%Z).
  destruct (Z.leb_spec s 0) as [Hs|Hs]; [eauto|].
  assert (Ha : (0 < a)%Z).
  { destruct (Z.eq_dec a 0) as [E|E]; [|unfold a in *; lia].
    unfold s in Hs. rewrite E in Hs. cbn in Hs. lia. }
  destruct (Z.log2_spec a Ha) as [_ Hup].
  assert (HL : (Z.log2 a < 1023)%Z) by (apply Z.log2_lt_pow2; assumption).
  assert (Hpow : (2 ^ Z.succ (Z.log2 a) = 2 ^ 53 * 2 ^ s)%Z).
  { rewrite <- Z.pow_add_r by lia. f_equal. unfold s. lia. }
  assert (Hps : (0 < 2 ^ s)%Z) by (apply Z.pow_pos_nonneg; lia).
  assert (Hq : (a / 2 ^ s < 2 ^ 53)%Z).
  { apply Z.div_lt_upper_bound; [exact Hps|]. rewrite Z.mul_comm.
    now rewrite <- Hpow. }
  set (m := if (2 ^ (s - 1) <? a mod 2 ^ s)%Z
                 || ((a mod 2 ^ s =? 2 ^ (s - 1))%Z && Z.odd (a / 2 ^ s))
            then (a / 2 ^ s + 1)%Z else (a / 2 ^ s)%Z).
  assert (Hm : (m <= 2 ^ 53)%Z) by (unfold m; destruct (_ || _); lia).
  assert (Hv : (m * 2 ^ s < 2 ^ 1024)%Z).
  { apply Z.le_lt_trans with (2 ^ 53 * 2 ^ s)%Z.
    - apply Z.mul_le_mono_nonneg_r; lia.
    - rewrite <- Hpow. apply Z.pow_lt_mono_r; lia. }
  destruct (Z.leb_spec (2 ^ 1024) (m * 2 ^ s)); [lia|eauto].
Qed.

Lemma truediv_2_exact (n : Z) :
  (Z.abs n <= 2 ^ 53)%Z -> truediv_2 n = Some (Qmake n 2).
Proof. intros H. unfold truediv_2. now rewrite float_of_int_exact. Qed.

Lemma truediv_2_bounded (n : Z) :
  (Z.abs n < 2 ^ 1023)%Z -> exists q, truediv_2 n = Some q.
Proof.
  intros H. unfold truediv_2.
  destruct (float_of_int_bounded n H) as [f ->]. eauto.
Qed.

(** The division raises exactly when the conversion does. *)
Lemma truediv_2_None (n : Z) :
  truediv_2 n = None <-> float_of_int n = None.
Proof.
  unfold truediv_2. destruct (float_of_int n); split; congruence.
Qed.

(** ** Minimum, maximum and the summary *)

Lemma fold_min_spec (l : list Z) (x : Z) :
  let m := fold_left Z.min l x in
  In m (x :: l) /\ (m <= x)%Z /\ Forall (fun y => (m <= y)%Z) l.
Proof.
  revert x; induction l as [|y l IH]; intros x; cbn [fold_left].
  - repeat split; [now left|lia|constructor].
  - destruct (IH (Z.min x y)) as (Hin & Hle & Hall).
    split; [|split].
    + destruct Hin as [Hin|Hin]; [|right; now right].
      rewrite <- Hin. destruct (Z.min_spec x y) as [[_ ->]|[_ ->]];
        [now left|right; now left].
    + lia.
    + constructor; [lia|exact Hall].
Qed.

Lemma fold_max_spec (l : list Z) (x : Z) :
  let m := fold_left Z.max l x in
  In m (x :: l) /\ (x <= m)%Z /\ Forall (fun y => (y <= m)%Z) l.
Proof.
  revert x; induction l as [|y l IH]; intros x; cbn [fold_left].
  - repeat split; [now left|lia|constructor].
  - destruct (IH (Z.max x y)) as (Hin & Hle & Hall).
    split; [|split].
    + destruct Hin as [Hin|Hin]; [|right; now right].
      rewrite <- Hin. destruct (Z.max_spec x y) as [[_ ->]|[_ ->]];
        [right; now left|now left].
    + lia.
    + constructor; [lia|exact Hall].
Qed.

(** What a summary says about the years it was computed from. *)
Lemma summary_spec (ys : list Z) (st : SubjectStat) :
  summary ys = Some st ->
  count st = List.length ys
  /\ In (min_year st) ys /\ In (max_year st) ys
  /\ Forall (fun y => (min_year st <= y <= max_year st)%Z) ys
  /\ truediv_2 (min_year st + max_year st) = Some (avg_year st).
Proof.
  destruct ys as [|y ys]; [discriminate|].
  unfold summary, py_min, py_max.
  destruct (truediv_2 _) as [avg|] eqn:Eavg; [|discriminate].
  intros [= <-]. cbn [count min_year max_year avg_year].
  destruct (fold_min_spec ys y) as (Hi & Hx & Ha).
  destruct (fold_max_spec ys y) as (Hi' & Hx' & Ha').
  repeat split; auto.
  constructor; [lia|].
  rewrite Forall_forall in *. intros z Hz.
  specialize (Ha z Hz). specialize (Ha' z Hz). cbv beta in *. lia.
Qed.

Lemma summary_min_le_max (ys : list Z) (st : SubjectStat) :
  summary ys = Some st -> (min_year st <= max_year st)%Z.
Proof.
  intros H. destruct (summary_spec ys st H) as (_ & Hin & _ & Hall & _).
  rewrite Forall_forall in Hall. specialize (Hall _ Hin). cbv beta in Hall.
  lia.
Qed.

(** A summary fails on no years at all, and otherwise exactly when the
    sum of the least and the greatest year does not convert to a
    float. *)
Lemma summary_None (ys : list Z) :
  summary ys = None
  <-> ys = []
      \/ exists mn mx, py_min ys = Some mn /\ py_max ys = Some mx
                       /\ float_of_int (mn + mx) = None.
Proof.
  destruct ys as [|y ys].
  - split; [now left|reflexivity].
  - unfold summary. cbn [py_min py_max]. split.
    + destruct (truediv_2 _) eqn:E; [discriminate|]. intros _. right.
      apply truediv_2_None in E. eauto.
    + intros [H|(mn & mx & [= <-] & [= <-] & H)]; [discriminate|].
      apply truediv_2_None in H. now rewrite H.
Qed.

(** Years below 2^1022 in magnitude can be summarised. *)
Lemma summary_modest (ys : list Z) :
  ys <> [] -> Forall (fun y => (Z.abs y < 2 ^ 1022)%Z) ys ->
  exists st, summary ys = Some st.
Proof.
  intros Hne Hall. destruct (summary ys) as [st|] eqn:E; [eauto|].
  exfalso. apply summary_None in E as [E|(mn & mx & Hmn & Hmx & Hf)];
    [contradiction|].
  destruct ys as [|y ys]; [contradiction|].
  cbn [py_min py_max] in Hmn, Hmx. injection Hmn as <-. injection Hmx as <-.
  destruct (fold_min_spec ys y) as (Hi & _).
  destruct (fold_max_spec ys y) as (Hi' & _).
  rewrite Forall_forall in Hall.
  pose proof (Hall _ Hi) as H1. pose proof (Hall _ Hi') as H2.
  cbv beta in H1, H2.
  destruct (float_of_int_bounded
              (fold_left Z.min ys y + fold_left Z.max ys y)) as [f Hf'].
  - assert (Hp : (2 ^ 1023 = 2 * 2 ^ 1022)%Z) by reflexivity.
    rewrite Hp. lia.
  - congruence.
Qed.

(** ** Aggregator: the summary loop *)

(** One iteration on a running tuple that counts its own years. *)
Lemma summarize_step (res : dict SubjectStat) (k : pystr)
  (d : Running.t) :
  Running.count d = List.length (Running.years d) ->
  summarize (Some res) (k, d)
  = if (3 <=? Running.count d)%nat
    then match summary (Running.years d) with
         | Some st => Some (dict_set res k st)
         | None => None
         end
    else Some res.
Proof.
  intros Hd. unfold summarize, summary.
  destruct (3 <=? Running.count d)%nat eqn:E3; [|reflexivity].
  rewrite <- Hd.
  destruct (py_min (Running.years d)) as [mn|];
    destruct (py_max (Running.years d)) as [mx|]; try reflexivity.
  destruct (truediv_2 (mn + mx)); reflexivity.
Qed.

(** Once an exception was raised the loop does nothing more. *)
Lemma summarize_raised (items : dict Running.t) :
  fold_left summarize items None = None.
Proof. induction items as [|[k d] items IH]; [reflexivity|exact IH]. Qed.

(** What the loop has built when it ends without an exception. *)
Lemma summarize_loop (items : dict Running.t) (res r : dict SubjectStat) :
  NoDup (keys items) ->
  (forall k d, In (k, d) items ->
               Running.count d = List.length (Running.years d)) ->
  (forall k, In k (keys items) -> ~ In k (keys res)) ->
  fold_left summarize items (Some res) = Some r ->
  (forall k d, In (k, d) items -> (3 <= Running.count d)%nat ->
               exists st, summary (Running.years d) = Some st)
  /\ keys r
     = keys res
       ++ keys (filter (fun it => (3 <=? Running.count (snd it))%nat)
                       items)
  /\ forall s,
      dict_get r s
      = match dict_get items s with
        | Some d =>
            if (3 <=? Running.count d)%nat
            then summary (Running.years d)
            else dict_get res s
        | None => dict_get res s
        end.
Proof.
  revert res; induction items as [|[k d] items IH];
    intros res Hnd Hwf Hdis Hr.
  - injection Hr as <-. split; [intros ? ? []|].
    split; [cbn; now rewrite app_nil_r|reflexivity].
  - inversion Hnd as [|? ? Hk Hnd']; subst.
    assert (Hwf' : forall k d, In (k, d) items ->
                   Running.count d = List.length (Running.years d))
      by (intros k0 d0 H0; apply (Hwf k0 d0); now right).
    assert (Hd := Hwf k d (or_introl eq_refl)).
    cbn [fold_left] in Hr. rewrite (summarize_step res k d Hd) in Hr.
    cbn [filter snd].
    destruct (3 <=? Running.count d)%nat eqn:E3.
    + destruct (summary (Running.years d)) as [st|] eqn:Es;
        [|rewrite summarize_raised in Hr; discriminate].
      assert (Hkeys : keys (dict_set res k st) = keys res ++ [k]).
      { rewrite keys_dict_set.
        now rewrite (proj2 (dict_get_None res k)
                       (Hdis k (or_introl eq_refl))). }
      destruct (IH (dict_set res k st) Hnd' Hwf') as (Hs & Hkr & Hget);
        [|exact Hr|].
      { intros k' Hk'. rewrite Hkeys. intros Hin.
        apply in_app_or in Hin as [Hin|[<-|[]]].
        - apply (Hdis k'); [now right|exact Hin].
        - contradiction. }
      split; [|split].
      * intros k0 d0 [[= <- <-]|Hin] H3; [eauto|now apply (Hs k0 d0)].
      * rewrite Hkr, Hkeys, <- app_assoc. reflexivity.
      * intros s. rewrite Hget. cbn [dict_get].
        destruct (pystr_eqb k s) eqn:Eks.
        -- apply pystr_eqb_eq in Eks; subst s.
           now rewrite (proj2 (dict_get_None items k) Hk),
             dict_get_set_same, E3.
        -- apply pystr_eqb_neq in Eks.
           now rewrite (dict_get_set_other res k s _ Eks).
    + destruct (IH res Hnd' Hwf') as (Hs & Hkr & Hget); [|exact Hr|].
      { intros k' Hk'. apply Hdis. now right. }
      split; [|split].
      * intros k0 d0 [[= <- <-]|Hin] H3;
          [apply Nat.leb_gt in E3; lia|now apply (Hs k0 d0)].
      * exact Hkr.
      * intros s. rewrite Hget. cbn [dict_get].
        destruct (pystr_eqb k s) eqn:Eks; [|reflexivity].
        apply pystr_eqb_eq in Eks; subst s.
        now rewrite (proj2 (dict_get_None items k) Hk), E3.
Qed.

(** The loop ends without an exception when every tuple that reaches
    the threshold can be summarised. *)
Lemma summarize_loop_returns (items : dict Running.t)
  (res : dict SubjectStat) :
  (forall k d, In (k, d) items ->
               Running.count d = List.length (Running.years d)) ->
  (forall k d, In (k, d) items -> (3 <= Running.count d)%nat ->
               exists st, summary (Running.years d) = Some st) ->
  exists r, fold_left summarize items (Some res) = Some r.
Proof.
  revert res; induction items as [|[k d] items IH]; intros res Hwf Hs.
  - exists res. reflexivity.
  - cbn [fold_left].
    rewrite (summarize_step res k d (Hwf k d (or_introl eq_refl))).
    assert (Hwf' : forall k d, In (k, d) items ->
                   Running.count d = List.length (Running.years d))
      by (intros k0 d0 H0; apply (Hwf k0 d0); now right).
    assert (Hs' : forall k d, In (k, d) items ->
                  (3 <= Running.count d)%nat ->
                  exists st, summary (Running.years d) = Some st)
      by (intros k0 d0 H0; apply (Hs k0 d0); now right).
    destruct (3 <=? Running.count d)%nat eqn:E3; [|now apply IH].
    apply Nat.leb_le in E3.
    destruct (Hs k d (or_introl eq_refl) E3) as [st ->]. now apply IH.
Qed.

Lemma collect_counts (books : list book) (k : pystr) (d : Running.t) :
  In (k, d) (collect books) ->
  Running.count d = List.length (Running.years d).
Proof. intros Hin. now apply collect_entries in Hin as [-> _]. Qed.

Lemma NoDup_keys_filter {V : Type} (p : pystr * V -> bool) (d : dict V) :
  NoDup (keys d) -> NoDup (keys (filter p d)).
Proof.
  induction d as [|[k v] d IH]; intros Hnd; [constructor|].
  inversion Hnd as [|? ? Hk Hnd']; subst. cbn [filter].
  destruct (p (k, v)); [|now apply IH].
  cbn. constructor; [|now apply IH].
  intros Hin. apply Hk. unfold keys in *.
  apply in_map_iff in Hin as ([k' v'] & E & Hin). cbn in E. subst k'.
  apply filter_In in Hin as [Hin _]. now apply (in_map fst) in Hin.
Qed.

(** When [analyze_subjects] returns, its result holds, for each subject
    listed at least three times, the summary of the years it was listed
    with, and nothing else. *)
Lemma analyze_subjects_lookup (books : list book) (r : dict SubjectStat) :
  analyze_subjects books = Some r ->
  NoDup (keys r)
  /\ (forall s, (3 <= occurrences s books)%nat ->
                exists st, summary (contributions s books) = Some st)
  /\ forall s,
      dict_get r s
      = if (3 <=? occurrences s books)%nat
        then summary (contributions s books)
        else None.
Proof.
  intros Hr.
  destruct (summarize_loop (collect books) [] r (NoDup_keys_collect books)
              (collect_counts books) (fun k _ H => H) Hr)
    as (Hs & Hk & Hget).
  split; [|split].
  - rewrite Hk. cbn [keys map app].
    apply NoDup_keys_filter, NoDup_keys_collect.
  - intros s H3. unfold occurrences in H3.
    pose proof (dict_get_collect books s) as Hc.
    destruct (contributions s books) as [|y ys] eqn:E; [simpl in H3; lia|].
    cbn [extend get_default Running.default Running.count Running.years
         app Nat.add] in Hc.
    apply dict_get_In in Hc. apply (Hs _ _ Hc). exact H3.
  - intros s. rewrite Hget, dict_get_collect. unfold occurrences.
    destruct (contributions s books) as [|y ys] eqn:E; reflexivity.
Qed.

(** [analyze_subjects] returns when every subject listed at least three
    times can be summarised. *)
Lemma analyze_subjects_returns (books : list book) :
  (forall s, (3 <= occurrences s books)%nat ->
             exists st, summary (contributions s books) = Some st) ->
  exists r, analyze_subjects books = Some r.
Proof.
  intros H. apply summarize_loop_returns; [apply collect_counts|].
  intros k d Hin H3. apply collect_entries in Hin as [-> _].
  cbn [Running.count Running.years] in *. now apply H.
Qed.

(** An entry of the result is the summary of its subject's years. *)
Lemma result_entry (books : list book) (r : dict SubjectStat)
  (s : pystr) (st : SubjectStat) :
  analyze_subjects books = Some r ->
  In (s, st) r ->
  (3 <= occurrences s books)%nat
  /\ summary (contributions s books) = Some st.
Proof.
  intros Hr Hin.
  destruct (analyze_subjects_lookup books r Hr) as (Hnd & _ & Hget).
  apply (In_dict_get _ _ _ Hnd) in Hin. rewrite Hget in Hin.
  destruct (3 <=? occurrences s books)%nat eqn:E; [|discriminate].
  apply Nat.leb_le in E. auto.
Qed.

(** ** Counting listings and records *)

Lemma occ_pos (s : pystr) (l : list pystr) :
  In s l <-> (1 <= occ s l)%nat.
Proof.
  unfold occ. induction l as [|x l IH]; simpl; [split; [tauto|lia]|].
  destruct (pystr_eqb s x) eqn:E; simpl.
  - apply pystr_eqb_eq in E. split; [lia|auto].
  - apply pystr_eqb_neq in E. rewrite <- IH. split; [|tauto].
    intros [H|H]; [congruence|exact H].
Qed.

Lemma occ_existsb (s : pystr) (l : list pystr) :
  existsb (pystr_eqb s) l = true <-> In s l.
Proof.
  rewrite existsb_exists. split.
  - intros (x & Hx & E). apply pystr_eqb_eq in E. now subst.
  - intros H. exists s. split; [exact H|apply pystr_eqb_refl].
Qed.

Lemma occ_NoDup (s : pystr) (l : list pystr) :
  NoDup l -> occ s l = if existsb (pystr_eqb s) l then 1%nat else 0%nat.
Proof.
  unfold occ. induction 1 as [|x l Hx Hnd IH]; simpl; [reflexivity|].
  destruct (pystr_eqb s x) eqn:E; simpl.
  - apply pystr_eqb_eq in E; subst x. f_equal.
    rewrite IH. destruct (existsb (pystr_eqb s) l) eqn:E'; [|reflexivity].
    apply occ_existsb in E'. contradiction.
  - exact IH.
Qed.

(** When no record lists a kept tag twice, listings and records agree. *)
Lemma occurrences_records (s : pystr) (books : list book) :
  (forall b, In b books -> NoDup (filter_subjects b)) ->
  occurrences s books = List.length (contributing_records s books).
Proof.
  unfold occurrences, contributions, contributing_records.
  induction books as [|b books IH]; intros Hnd; [reflexivity|].
  cbn [flat_map filter]. rewrite length_app, IH
    by (intros b' Hb'; apply Hnd; now right).
  destruct (usable_year b) as [year|]; [|reflexivity].
  rewrite repeat_length, (occ_NoDup s _ (Hnd b (or_introl eq_refl))).
  destruct (existsb (pystr_eqb s) (filter_subjects b)); reflexivity.
Qed.

Lemma usable_year_Some (b : book) (y : Z) :
  usable_year b = Some y
  <-> first_publish_year b = Some y /\ y <> 0%Z.
Proof.
  unfold usable_year. destruct (first_publish_year b) as [year|].
  - destruct (Z.eqb_spec year 0); split.
    + discriminate.
    + intros [[= ->] H]. contradiction.
    + intros [= ->]. auto.
    + intros [[= ->] _]. reflexivity.
  - split; [discriminate|intros [[=] _]].
Qed.

(** Every year brought to a subject is the year of a record that lists
    the subject among its kept tags. *)
Lemma contributions_In (s : pystr) (books : list book) (y : Z) :
  In y (contributions s books) ->
  exists b, In b books /\ usable_year b = Some y
            /\ In s (filter_subjects b).
Proof.
  unfold contributions. rewrite in_flat_map. intros (b & Hb & Hy).
  exists b. split; [exact Hb|].
  destruct (usable_year b) as [year|]; [|contradiction].
  pose proof (repeat_spec _ _ _ Hy) as ->. split; [reflexivity|].
  apply occ_pos. destruct (occ s (filter_subjects b)); [contradiction|lia].
Qed.

(** Modest years stay modest in what they bring to a subject. *)
Lemma modest_contributions (books : list book) (s : pystr) :
  modest_years books ->
  Forall (fun y => (Z.abs y < 2 ^ 1022)%Z) (contributions s books).
Proof.
  intros Hm. apply Forall_forall. intros y Hy.
  apply contributions_In in Hy as (b & Hb & Hu & _).
  apply usable_year_Some in Hu as [Hu _]. exact (Hm b y Hb Hu).
Qed.

(** With modest years [analyze_subjects] raises no exception. *)
Lemma analyze_subjects_modest (books : list book) :
  modest_years books -> exists r, analyze_subjects books = Some r.
Proof.
  intros Hm. apply analyze_subjects_returns. intros s H3.
  apply summary_modest; [|now apply modest_contributions].
  unfold occurrences in H3. intros E. rewrite E in H3. simpl in H3. lia.
Qed.

Lemma modest_trilogy : modest_years trilogy.
Proof.
  intros b y Hb Hy. cbn in Hb.
  repeat (destruct Hb as [<-|Hb];
          [cbn in Hy; try discriminate; injection Hy as <-; reflexivity|]).
  contradiction.
Qed.

(** Records the loop skips can be left out of the input. *)
Lemma collect_skip (p : book -> bool) (books : list book) :
  (forall b, p b = false -> usable_year b = None) ->
  collect (filter p books) = collect books.
Proof.
  intros Hp. unfold collect. generalize (@nil (pystr * Running.t)).
  induction books as [|b books IH]; intros sd; [reflexivity|].
  cbn [filter fold_left]. destruct (p b) eqn:E.
  - cbn [fold_left]. apply IH.
  - rewrite IH. f_equal. specialize (Hp b E).
    unfold step_book. unfold usable_year in Hp.
    destruct (first_publish_year b) as [year|]; [|reflexivity].
    destruct (year =? 0)%Z; [reflexivity|discriminate].
Qed.

(** Records without a year bring no year to any subject. *)
Lemma contributions_no_year (s : pystr) (books : list book) :
  contributions s (filter (fun b => negb (has_year b)) books) = [].
Proof.
  induction books as [|b books IH]; [reflexivity|].
  cbn [filter]. destruct (has_year b) eqn:E; cbn [negb]; [exact IH|].
  change (b :: ?l) with ([b] ++ l). rewrite contributions_app, IH.
  unfold contributions, usable_year. unfold has_year in E. simpl.
  now destruct (first_publish_year b).
Qed.

(** ** Aggregator *)

(** The end-to-end example: three records tagged "Galactic empire" in
    1977, 1980 and 1983; the record without a year changes nothing. *)
Example analyze_trilogy :
  analyze_subjects trilogy
  = Some [(GALACTIC, {| count := 3; min_year := 1977; max_year := 1983;
                        avg_year := Qmake 3960 2 |})].
Proof. reflexivity. Qed.

(** C2 as stated fails: a record that lists a tag twice is counted
    twice.  Here two records bring years to "Galactic empire", and its
    count is 3. *)
Lemma repeated_tag_counts_twice :
  exists st,
    analyze_subjects repeated_tag = Some [(GALACTIC, st)]
    /\ count st = 3%nat
    /\ List.length (contributing_records GALACTIC repeated_tag) = 2%nat
    /\ count st
       <> List.length (contributing_records GALACTIC repeated_tag).
Proof.
  eexists. split; [reflexivity|]. split; [reflexivity|].
  split; [reflexivity|]. vm_compute. discriminate.
Qed.

(** C2, amended.  The count of a subject in the result is the number of
    times the subject is listed among the kept tags of the records with
    a usable year, which is the number of those records when no record
    lists a kept tag twice; records without a year bring nothing, and
    leaving them out changes nothing.  A result there is whenever the
    years are modest. *)
Theorem count_is_number_of_listings (books : list book) :
  (forall r s st,
      analyze_subjects books = Some r ->
      In (s, st) r ->
      count st = occurrences s books
      /\ ((forall b, In b books -> NoDup (filter_subjects b)) ->
          count st = List.length (contributing_records s books)))
  /\ analyze_subjects (filter has_year books) = analyze_subjects books
  /\ (forall s,
         contributions s (filter (fun b => negb (has_year b)) books)
         = [])
  /\ (modest_years books -> exists r, analyze_subjects books = Some r).
Proof.
  split; [|split; [|split]].
  - intros r s st Hr Hin.
    destruct (result_entry books r s st Hr Hin) as [_ Hs].
    apply summary_spec in Hs as (Hc & _).
    split; [exact Hc|]. intros Hnodup.
    rewrite Hc. now apply occurrences_records.
  - unfold analyze_subjects. f_equal.
    apply collect_skip. intros b. unfold has_year, usable_year.
    now destruct (first_publish_year b).
  - intros s. apply contributions_no_year.
  - apply analyze_subjects_modest.
Qed.

Lemma count_is_number_of_listings_witness :
  exists r st,
    analyze_subjects trilogy = Some r
    /\ In (GALACTIC, st) r
    /\ count st = occurrences GALACTIC trilogy
    /\ count st = List.length (contributing_records GALACTIC trilogy).
Proof.
  destruct (count_is_number_of_listings trilogy) as (Hc & _ & _ & Hm).
  destruct (Hm modest_trilogy) as [r Hr].
  pose proof analyze_trilogy as E. rewrite Hr in E. injection E as E.
  exists r. eexists. split; [exact Hr|].
  assert (Hin : In (GALACTIC,
                    {| count := 3; min_year := 1977%Z; max_year := 1983%Z;
                       avg_year := Qmake 3960 2 |}) r)
    by (rewrite E; left; reflexivity).
  split; [exact Hin|].
  destruct (Hc _ _ _ Hr Hin) as [H1 H2].
  split; [exact H1|]. apply H2.
  intros b Hb. vm_compute in Hb.
  repeat (destruct Hb as [<-|Hb]; [vm_compute; repeat constructor; simpl; tauto|]).
  contradiction.
Defined.




(** C4 as stated fails: a record whose year is present and is 0 is
    skipped like one without a year, because the guard tests the year
    for truth.  Three such records leave the result empty. *)
Lemma year_zero_is_skipped :
  first_publish_year year_zero = Some 0%Z
  /\ filter_subjects year_zero = [GALACTIC]
  /\ dict_get (step_book [] year_zero) GALACTIC = None
  /\ analyze_subjects [year_zero; year_zero; year_zero] = Some [].
Proof. repeat split; reflexivity. Qed.

(** C4, amended.  The loop processes exactly the records whose year is
    present and is not 0: such a record adds, for each kept tag, one to
    the tag's count and the year to the tag's years per listing of the
    tag (once when the tag is listed once), and leaves other subjects
    as they were; a record without a year, and a record whose year is
    0, leaves every subject as it was.  [collect] runs this step on
    the records in order. *)
Theorem step_book_spec (sd : dict Running.t) (b : book) :
  (forall year,
      first_publish_year b = Some year -> year <> 0%Z ->
      forall s,
        let old := get_default (dict_get sd s) Running.default in
        let n := occ s (filter_subjects b) in
        (In s (filter_subjects b) ->
         (1 <= n)%nat
         /\ (NoDup (filter_subjects b) -> n = 1%nat)
         /\ dict_get (step_book sd b) s
            = Some {| Running.count := Running.count old + n;
                      Running.years := Running.years old ++ repeat year n |})
        /\ (~ In s (filter_subjects b) ->
            dict_get (step_book sd b) s = dict_get sd s))
  /\ (first_publish_year b = None \/ first_publish_year b = Some 0%Z ->
      step_book sd b = sd)
  /\ (forall before after,
         collect (before ++ b :: after)
         = fold_left step_book after (step_book (collect before) b)).
Proof.
  split; [|split].
  3: { intros before after. unfold collect.
       now rewrite fold_left_app. }
  - intros year Hy Hne s old n.
    assert (Hget : dict_get (step_book sd b) s
                   = extend (dict_get sd s) (repeat year n)).
    { rewrite dict_get_step_book. unfold contributions, usable_year.
      cbn [flat_map]. rewrite Hy.
      destruct (Z.eqb_spec year 0); [contradiction|].
      now rewrite app_nil_r. }
    split.
    + intros Hin. pose proof (proj1 (occ_pos _ _) Hin) as Hn.
      fold n in Hn. split; [exact Hn|]. split.
      * intros Hnd. unfold n. rewrite (occ_NoDup _ _ Hnd).
        now rewrite (proj2 (occ_existsb _ _) Hin).
      * rewrite Hget, extend_pos by (rewrite repeat_length; exact Hn).
        now rewrite repeat_length.
    + intros Hnin. rewrite Hget.
      assert (Hn : n = 0%nat).
      { destruct n eqn:En; [reflexivity|]. exfalso. apply Hnin.
        apply occ_pos. fold n. lia. }
      now rewrite Hn.
  - intros [Hy|Hy]; unfold step_book; now rewrite Hy.
Qed.

Lemma step_book_spec_witness :
  dict_get (step_book (collect (firstn 1 trilogy))
                      (tagged [GALACTIC] (Some 1980%Z))) GALACTIC
  = Some {| Running.count := 2; Running.years := [1977%Z; 1980%Z] |}
  /\ step_book (collect (firstn 1 trilogy)) (tagged [GALACTIC] None)
     = collect (firstn 1 trilogy)
  /\ step_book (collect (firstn 1 trilogy)) year_zero
     = collect (firstn 1 trilogy).
Proof.
  destruct (step_book_spec (collect (firstn 1 trilogy))
                           (tagged [GALACTIC] (Some 1980%Z)))
    as [H _].
  destruct (step_book_spec (collect (firstn 1 trilogy))
                           (tagged [GALACTIC] None))
    as (_ & H0 & _).
  destruct (step_book_spec (collect (firstn 1 trilogy)) year_zero)
    as (_ & Hz & _).
  split; [|split; [apply H0; left; reflexivity
                  |apply Hz; right; reflexivity]].
  assert (Hne : 1980%Z <> 0%Z) by discriminate.
  destruct (H 1980%Z eq_refl Hne GALACTIC) as [Hin _].
  destruct Hin as (_ & _ & Hget); [left; reflexivity|].
  exact Hget.
Defined.

(** The midpoint as a quotient of rationals. *)
Lemma midpoint_Q (a b : Z) :
  (Qmake (a + b) 2 == (inject_Z a + inject_Z b) / inject_Z 2)%Q.
Proof.
  unfold Qeq, Qdiv, Qmult, Qinv, Qplus, inject_Z. simpl. lia.
Qed.

(** C7.  Every entry of the result has [min_year <= max_year], both
    among the years brought to the subject and bounding them all, and
    its [avg_year] is the float [(min_year + max_year) / 2.0]: the sum
    converted to the nearest double and halved, which is the midpoint
    itself while the sum is at most 2^53 in magnitude.  A result there
    is whenever the years are modest. *)
Theorem year_range_and_midpoint (books : list book) :
  (forall r s st,
      analyze_subjects books = Some r ->
      In (s, st) r ->
      (min_year st <= max_year st)%Z
      /\ truediv_2 (min_year st + max_year st) = Some (avg_year st)
      /\ ((Z.abs (min_year st + max_year st) <= 2 ^ 53)%Z ->
          (avg_year st
           == (inject_Z (min_year st) + inject_Z (max_year st))
              / inject_Z 2)%Q)
      /\ In (min_year st) (contributions s books)
      /\ In (max_year st) (contributions s books)
      /\ Forall (fun y => (min_year st <= y <= max_year st)%Z)
                (contributions s books))
  /\ (modest_years books -> exists r, analyze_subjects books = Some r).
Proof.
  split; [|apply analyze_subjects_modest]. intros r s st Hr Hin.
  destruct (result_entry books r s st Hr Hin) as [_ Hs].
  pose proof (summary_min_le_max _ _ Hs) as Hle.
  apply summary_spec in Hs as (_ & Hmin & Hmax & Hall & Havg).
  split; [exact Hle|]. split; [exact Havg|]. split; [|auto].
  intros Hsmall. rewrite (truediv_2_exact _ Hsmall) in Havg.
  injection Havg as <-. apply midpoint_Q.
Qed.

Lemma year_range_and_midpoint_witness :
  exists r st,
    analyze_subjects trilogy = Some r
    /\ In (GALACTIC, st) r
    /\ (min_year st <= max_year st)%Z
    /\ truediv_2 (min_year st + max_year st) = Some (avg_year st)
    /\ (avg_year st
        == (inject_Z (min_year st) + inject_Z (max_year st))
           / inject_Z 2)%Q.
Proof.
  destruct (year_range_and_midpoint trilogy) as [H Hm].
  destruct (Hm modest_trilogy) as [r Hr].
  pose proof analyze_trilogy as E. rewrite Hr in E. injection E as E.
  assert (Hin : In (GALACTIC,
                    {| count := 3; min_year := 1977%Z; max_year := 1983%Z;
                       avg_year := Qmake 3960 2 |}) r)
    by (rewrite E; left; reflexivity).
  destruct (H _ _ _ Hr Hin) as (H1 & H2 & H3 & _).
  exists r. eexists. split; [exact Hr|]. split; [exact Hin|].
  split; [exact H1|]. split; [exact H2|].
  apply H3. cbn. lia.
Defined.

(** The midpoint is not the mean of the years: 1977, 1977 and 1983 have
    midpoint 1980 and mean 1979. *)
Example midpoint_is_not_mean :
  exists st,
    summary [1977; 1977; 1983]%Z = Some st
    /\ (avg_year st == inject_Z 1980)%Q
    /\ ~ (avg_year st == Qmake (1977 + 1977 + 1983) 3)%Q.
Proof.
  eexists. split; [reflexivity|]. split; [reflexivity|].
  vm_compute. discriminate.
Qed.

(** Beyond 2^53 the float is not the midpoint: three records of the
    year 2^53 + 1 have [avg_year] 2^53, below their [min_year]. *)
Example midpoint_rounds :
  analyze_subjects past_exact
  = Some [(GALACTIC, {| count := 3; min_year := 2 ^ 53 + 1;
                        max_year := 2 ^ 53 + 1;
                        avg_year := Qmake (2 ^ 54) 2 |})].
Proof. vm_compute. reflexivity. Qed.

(** ** Substrings and letter case *)

Lemma startswith_iff (p s : pystr) :
  startswith p s = true <-> exists v, s = p ++ v.
Proof.
  revert s; induction p as [|c p IH]; intros s; simpl.
  - split; eauto.
  - destruct s as [|d s]; [split; [discriminate|intros [v [=]]]|].
    rewrite andb_true_iff, N.eqb_eq, IH. split.
    + intros [-> [v ->]]. eauto.
    + intros [v [= -> ->]]. eauto.
Qed.

Lemma contains_iff (p s : pystr) :
  contains p s = true <-> exists u v, s = u ++ p ++ v.
Proof.
  induction s as [|d s IH]; simpl.
  - rewrite orb_false_r, startswith_iff. split.
    + intros [v ->]. exists [], v. reflexivity.
    + intros (u & v & H). destruct u; [eauto|discriminate].
  - rewrite orb_true_iff, IH, startswith_iff. split.
    + intros [[v ->]|(u & v & ->)].
      * exists [], v. reflexivity.
      * exists (d :: u), v. reflexivity.
    + intros (u & v & H). destruct u as [|e u].
      * left. eauto.
      * right. injection H as _ ->. eauto.
Qed.

Lemma lower_cp_nonempty (d : code_point) : lower_cp d <> [].
Proof. unfold lower_cp. case_tests; discriminate. Qed.

(** Apart from the letter i, which also arises from U+0130 together
    with a combining dot, Basic Latin code points are single. *)
Lemma single_ascii (c : code_point) : c < 128 -> c <> 105 -> single c.
Proof.
  intros Hc Hi d. unfold lower_cp. case_tests; simpl;
    intuition (subst; try lia; reflexivity).
Qed.

(** Lowercase text cut at a boundary comes from a cut of the text. *)
Lemma lower_split (x a b : pystr) :
  lower x = a ++ b -> boundary a b ->
  exists x1 x2, x = x1 ++ x2 /\ lower x1 = a /\ lower x2 = b.
Proof.
  revert a; induction x as [|d x IH]; intros a Heq Hb.
  - symmetry in Heq. apply app_eq_nil in Heq as [-> ->].
    exists [], []. auto.
  - change (lower (d :: x)) with (lower_cp d ++ lower x) in Heq.
    apply app_eq_app in Heq as [l [[Hd Hl]|[Ha Hl]]].
    + (* the cut falls within the image of [d] *)
      destruct a as [|a0 a].
      { exists [], (d :: x). repeat split.
        change (lower (d :: x)) with (lower_cp d ++ lower x).
        now rewrite Hd, Hl. }
      destruct l as [|l0 l].
      { exists [d], x. repeat split.
        - change (lower [d]) with (lower_cp d ++ []).
          now rewrite Hd, !app_nil_r.
        - now rewrite Hl. }
      exfalso.
      assert (Hlen : (2 <= List.length (lower_cp d))%nat).
      { rewrite Hd, length_app. simpl. lia. }
      assert (Hone : forall c, single c -> In c (lower_cp d) -> False).
      { intros c Hc Hin. rewrite (Hc d Hin) in Hlen. simpl in Hlen. lia. }
      destruct Hb as [Hb|[Hb|[(a' & c & Ha & Hc)|(c & b' & Hb & Hc)]]].
      * discriminate.
      * subst b. discriminate.
      * apply (Hone c Hc). rewrite Hd, Ha.
        apply in_or_app; left. apply in_or_app; right. now left.
      * apply (Hone c Hc). rewrite Hd. subst b. injection Hb as <- _.
        apply in_or_app; right. now left.
    + (* the image of [d] lies before the cut *)
      destruct (IH l Hl) as (x1 & x2 & -> & H1 & H2).
      { destruct l as [|l0 l]; [now left|].
        destruct Hb as [Hb|[Hb|[(a' & c & Ha' & Hc)|Hb]]].
        - rewrite Ha in Hb. apply app_eq_nil in Hb as [_ Hb].
          discriminate.
        - right; now left.
        - right; right; left.
          destruct (exists_last (l := l0 :: l)) as (l' & c' & El);
            [discriminate|].
          exists l', c'. split; [exact El|].
          rewrite El, app_assoc, Ha' in Ha.
          apply app_inj_tail in Ha as [_ ->]. exact Hc.
        - right; right; now right. }
      exists (d :: x1), x2. repeat split; auto.
      change (lower (d :: x1)) with (lower_cp d ++ lower x1).
      now rewrite H1, Ha.
Qed.

(** A keyword of single code points is found in the lowercase form of a
    text exactly when it occurs in the text up to letter case. *)
Lemma contains_lower_icontains (kw x : pystr) :
  Forall single kw ->
  contains kw (lower x) = true <-> icontains kw x.
Proof.
  intros Hkw. rewrite contains_iff. split.
  - intros (u & v & Heq).
    destruct kw as [|k kw].
    { exists x, [], []. now rewrite !app_nil_r. }
    destruct (lower_split x u ((k :: kw) ++ v) Heq)
      as (x1 & x2 & -> & _ & H2).
    { right; right; right. exists k, (kw ++ v). split; [reflexivity|].
      now inversion Hkw. }
    destruct (lower_split x2 (k :: kw) v H2) as (w & v' & -> & Hw & _).
    { right; right; left.
      destruct (exists_last (l := k :: kw)) as (a' & c & El);
        [discriminate|].
      exists a', c. split; [exact El|].
      rewrite Forall_forall in Hkw. apply Hkw. rewrite El.
      apply in_or_app; right; now left. }
    exists x1, w, v'. auto.
  - intros (u & w & v & -> & <-).
    exists (lower u), (lower v). now rewrite !lower_app.
Qed.

Lemma star_wars_single : Forall single STAR_WARS_KEYWORD.
Proof.
  apply Forall_forall. intros c Hc. apply single_ascii;
    vm_compute in Hc; intuition (subst; try reflexivity; discriminate).
Qed.

(** ** Classifier *)

Lemma is_star_wars_book_iff (b : book) :
  is_star_wars_book b = true <-> mentions_star_wars b.
Proof.
  unfold is_star_wars_book, mentions_star_wars.
  rewrite <- (contains_lower_icontains _ _ star_wars_single).
  destruct (contains STAR_WARS_KEYWORD (lower (get_default (title b) [])));
    [tauto|].
  rewrite existsb_exists. split.
  - intros (s' & Hin & Hs'). right.
    apply in_map_iff in Hin as (s & <- & Hin).
    exists s. split; [exact Hin|].
    now apply (contains_lower_icontains _ _ star_wars_single).
  - intros [H|(s & Hin & Hs)]; [discriminate|].
    exists (lower s). split; [now apply in_map|].
    now apply (contains_lower_icontains _ _ star_wars_single).
Qed.

(** C5.  A record is in the primary-franchise group exactly when
    "star wars" occurs, up to letter case, in its title or in one of its
    unfiltered subject tags, and in the other group exactly when it does
    not; so each record is in exactly one group.  A missing title is
    read as the empty text. *)
Theorem classify_spec (b : book) :
  (classify b = primary_franchise <-> mentions_star_wars b)
  /\ (classify b = other <-> ~ mentions_star_wars b)
  /\ (classify b = primary_franchise \/ classify b = other)
  /\ (forall tags year,
         classify {| title := None; subject := tags;
                     first_publish_year := year |}
         = classify {| title := Some []; subject := tags;
                       first_publish_year := year |}).
Proof.
  pose proof (is_star_wars_book_iff b) as H. unfold classify at 1 2 3 4.
  destruct (is_star_wars_book b).
  - split; [tauto|]. split; [|split; [now left|reflexivity]].
    split; [discriminate|]. intros Hn. exfalso. apply Hn, H. reflexivity.
  - assert (Hn : ~ mentions_star_wars b)
      by (intros Hm; apply H in Hm; discriminate).
    split; [split; [discriminate|tauto]|].
    split; [tauto|]. split; [now right|reflexivity].
Qed.

Lemma classify_spec_witness :
  classify thrawn = primary_franchise /\ ~ mentions_star_wars dune.
Proof.
  split.
  - apply (proj1 (classify_spec thrawn)). left.
    exists [], (str "Star Wars"), (str ": Thrawn"). split; reflexivity.
  - apply (proj1 (proj1 (proj2 (classify_spec dune)))). reflexivity.
Defined.

(** ** Presentation *)

Lemma avg_leb_le (a b : pystr * SubjectStat) :
  avg_leb a b = true <-> avg_le a b.
Proof. apply Qle_bool_iff. Qed.

Lemma avg_leb_false (a b : pystr * SubjectStat) :
  avg_leb a b = false ->
  avg_le b a /\ ~ (avg_year (snd a) == avg_year (snd b))%Q.
Proof.
  intros H. assert (Hlt : (avg_year (snd b) < avg_year (snd a))%Q).
  { apply Qnot_le_lt. intros Hle. apply avg_leb_le in Hle. congruence. }
  split; [now apply Qlt_le_weak|].
  intros E. rewrite E in Hlt. exact (Qlt_irrefl _ Hlt).
Qed.

Lemma avg_le_trans (a b c : pystr * SubjectStat) :
  avg_le a b -> avg_le b c -> avg_le a c.
Proof. apply Qle_trans. Qed.

Lemma insert_by_avg_perm (x : pystr * SubjectStat)
  (l : list (pystr * SubjectStat)) :
  Permutation (x :: l) (insert_by_avg x l).
Proof.
  induction l as [|y l IH]; simpl; [reflexivity|].
  destruct (avg_leb x y); [reflexivity|].
  rewrite perm_swap. now constructor.
Qed.

Lemma sorted_by_avg_perm (l : list (pystr * SubjectStat)) :
  Permutation l (sorted_by_avg l).
Proof.
  induction l as [|x l IH]; simpl; [constructor|].
  rewrite <- insert_by_avg_perm. now constructor.
Qed.

Lemma insert_by_avg_sorted (x : pystr * SubjectStat)
  (l : list (pystr * SubjectStat)) :
  StronglySorted avg_le l -> StronglySorted avg_le (insert_by_avg x l).
Proof.
  induction 1 as [|y l Hs IH Hall]; simpl.
  - repeat constructor.
  - destruct (avg_leb x y) eqn:E.
    + apply avg_leb_le in E. constructor.
      * now constructor.
      * constructor; [exact E|].
        eapply Forall_impl; [|exact Hall].
        intros z Hz. exact (avg_le_trans _ _ _ E Hz).
    + apply avg_leb_false in E as [E _]. constructor; [exact IH|].
      eapply Permutation_Forall; [apply insert_by_avg_perm|].
      now constructor.
Qed.

Lemma sorted_by_avg_sorted (l : list (pystr * SubjectStat)) :
  StronglySorted avg_le (sorted_by_avg l).
Proof.
  induction l as [|x l IH]; simpl; [constructor|].
  now apply insert_by_avg_sorted.
Qed.

(** Insertion never moves an entry past one of equal score. *)
Lemma insert_by_avg_stable (q : Q) (x : pystr * SubjectStat)
  (l : list (pystr * SubjectStat)) :
  with_avg q (insert_by_avg x l) = with_avg q (x :: l).
Proof.
  unfold with_avg. induction l as [|y l IH]; [reflexivity|].
  cbn [insert_by_avg]. destruct (avg_leb x y) eqn:E; [reflexivity|].
  apply avg_leb_false in E as [_ Hne].
  cbn [filter] in *. rewrite IH.
  destruct (Qeq_bool (avg_year (snd x)) q) eqn:Ex;
    destruct (Qeq_bool (avg_year (snd y)) q) eqn:Ey; try reflexivity.
  exfalso. apply Hne. apply Qeq_bool_iff in Ex, Ey.
  now rewrite Ex, Ey.
Qed.

Lemma sorted_by_avg_stable (q : Q) (l : list (pystr * SubjectStat)) :
  with_avg q (sorted_by_avg l) = with_avg q l.
Proof.
  induction l as [|x l IH]; [reflexivity|].
  cbn [sorted_by_avg fold_right]. rewrite insert_by_avg_stable.
  unfold with_avg in *. cbn [filter]. fold (sorted_by_avg l).
  now rewrite IH.
Qed.

Lemma map_combine_map {A B C D : Type} (f : B * C -> D)
  (g : A -> B) (h : A -> C) (l : list A) :
  map f (combine (map g l) (map h l)) = map (fun r => f (g r, h r)) l.
Proof. induction l; simpl; congruence. Qed.

(** C9.  On an empty result [create_bar_chart] saves no figure and
    prints one line, "No subjects to plot for" and the title.  On a
    result that is not empty it saves one figure whose rows are the
    entries of the result in ascending order of [avg_year], entries of
    equal score in their order in the result. *)
Theorem create_bar_chart_spec (title filename : pystr) :
  create_bar_chart [] title filename
  = [Print (str "No subjects to plot for " ++ title)]
  /\ forall subject_data,
      subject_data <> [] ->
      exists rows,
        Permutation subject_data rows
        /\ StronglySorted avg_le rows
        /\ (forall q, with_avg q rows = with_avg q subject_data)
        /\ create_bar_chart subject_data title filename
           = [SaveFig filename (chart_of rows title);
              Print (str "Saved chart to " ++ filename)].
Proof.
  split; [reflexivity|]. intros sd Hne.
  exists (sorted_by_avg sd).
  split; [apply sorted_by_avg_perm|].
  split; [apply sorted_by_avg_sorted|].
  split; [intros q; apply sorted_by_avg_stable|].
  unfold create_bar_chart.
  destruct (sorted_by_avg sd) as [|r rows] eqn:E.
  - exfalso. apply Hne. apply Permutation_nil.
    rewrite <- E. symmetry. apply sorted_by_avg_perm.
  - unfold chart_of. now rewrite !map_combine_map.
Qed.

Lemma create_bar_chart_spec_witness :
  two_subjects <> []
  /\ exists rows,
      Permutation two_subjects rows
      /\ StronglySorted avg_le rows
      /\ create_bar_chart two_subjects (str "Trends") (str "out.png")
         = [SaveFig (str "out.png") (chart_of rows (str "Trends"));
            Print (str "Saved chart to " ++ str "out.png")].
Proof.
  assert (Hne : two_subjects <> []) by discriminate.
  split; [exact Hne|].
  destruct (create_bar_chart_spec (str "Trends") (str "out.png"))
    as [_ H].
  destruct (H two_subjects Hne) as (rows & Hp & Hs & _ & Hc).
  exists rows. auto.
Defined.

(** The later subject is listed first in [two_subjects] and drawn
    second. *)
Example chart_two_subjects :
  create_bar_chart two_subjects (str "Trends") (str "out.png")
  = [SaveFig (str "out.png") (chart_of (rev two_subjects) (str "Trends"));
     Print (str "Saved chart to out.png")].
Proof. reflexivity. Qed.

(** ** The last rule of the subject filter *)

Lemma is_punctuation_spec (c : code_point) :
  is_punctuation c = true
  <-> 33 <= c <= 47 \/ 58 <= c <= 64 \/ 91 <= c <= 96 \/ 123 <= c <= 126.
Proof.
  unfold is_punctuation, in_range.
  rewrite !orb_true_iff, !andb_true_iff, !N.leb_le. tauto.
Qed.

Lemma is_space_spec (c : code_point) :
  is_space c = true
  <-> 9 <= c <= 13 \/ 28 <= c <= 32 \/ c = 133 \/ c = 160 \/ c = 5760
      \/ 8192 <= c <= 8202 \/ c = 8232 \/ c = 8233 \/ c = 8239
      \/ c = 8287 \/ c = 12288.
Proof.
  unfold is_space, in_range.
  rewrite !orb_true_iff, !andb_true_iff, !N.leb_le, !N.eqb_eq. tauto.
Qed.

(** Filler has no case. *)
Lemma lower_cp_filler (c : code_point) :
  is_filler c = true -> lower_cp c = [c].
Proof.
  unfold is_filler. rewrite orb_true_iff, is_punctuation_spec, is_space_spec.
  intros H. unfold lower_cp. case_tests; reflexivity.
Qed.

Lemma generic_only_made_of (s : pystr) :
  generic_only s -> made_of generic_words (lower s).
Proof.
  induction 1 as [|w rest Hw _ IH|c rest Hc _ IH|c rest Hc _ IH].
  - constructor.
  - rewrite lower_app. now constructor.
  - change (lower (c :: rest)) with (lower_cp c ++ lower rest).
    rewrite lower_cp_filler by (unfold is_filler; now rewrite Hc).
    now constructor; [unfold is_filler; rewrite Hc|].
  - change (lower (c :: rest)) with (lower_cp c ++ lower rest).
    rewrite lower_cp_filler
      by (unfold is_filler; rewrite Hc; apply orb_true_r).
    constructor; [unfold is_filler; rewrite Hc; apply orb_true_r|exact IH].
Qed.

Lemma clash_startswith (old t rest : pystr) :
  clash old t = true -> startswith old (t ++ rest) = false.
Proof.
  revert t; induction old as [|o old IH]; intros [|c t]; simpl;
    try discriminate.
  destruct (o =? c); simpl; [apply IH|reflexivity].
Qed.

(** The scan copies a stretch in which no occurrence starts. *)
Lemma replace_from_copy (old t rest : pystr) :
  clash_all old t = true ->
  replace_from old 0 (t ++ rest) = t ++ replace_from old 0 rest.
Proof.
  induction t as [|c t IH]; [reflexivity|].
  cbn [clash_all]. rewrite andb_true_iff. intros [Hc Hall].
  change ((c :: t) ++ rest) with (c :: (t ++ rest)).
  cbn [replace_from].
  change (c :: (t ++ rest)) with ((c :: t) ++ rest).
  rewrite (clash_startswith _ _ rest Hc), IH by exact Hall. reflexivity.
Qed.

Lemma replace_from_drop (old a rest : pystr) :
  replace_from old (List.length a) (a ++ rest) = replace_from old 0 rest.
Proof. induction a as [|c a IH]; [reflexivity|exact IH]. Qed.

(** The scan drops an occurrence it stands on. *)
Lemma replace_from_match (o : code_point) (old rest : pystr) :
  replace_from (o :: old) 0 ((o :: old) ++ rest)
  = replace_from (o :: old) 0 rest.
Proof.
  change ((o :: old) ++ rest) with (o :: (old ++ rest)).
  cbn [replace_from].
  change (o :: (old ++ rest)) with ((o :: old) ++ rest).
  rewrite (proj2 (startswith_iff (o :: old) _)) by eauto.
  cbn [List.length Nat.pred]. apply replace_from_drop.
Qed.

(** Deleting the word [w] from text made of [w], of words that [w]
    clashes with and of filler leaves text made of those words and of
    filler. *)
Lemma replace_made_of (w : pystr) (ws : list pystr) (s : pystr) :
  starts_with_letter w = true ->
  forallb (clash_all w) ws = true ->
  made_of (w :: ws) s -> made_of ws (replace w s).
Proof.
  intros Hw Hws. destruct w as [|o w]; [discriminate|].
  cbn [starts_with_letter] in Hw. apply negb_true_iff in Hw.
  cbn [replace].
  induction 1 as [|w0 rest Hin _ IH|c rest Hc _ IH].
  - constructor.
  - destruct Hin as [<-|Hin].
    + now rewrite replace_from_match.
    + rewrite forallb_forall in Hws.
      rewrite (replace_from_copy _ _ _ (Hws _ Hin)).
      now constructor.
  - cbn [replace_from startswith].
    destruct (N.eqb_spec o c) as [->|_]; [congruence|].
    cbn [andb]. now constructor.
Qed.

Lemma lstrip_spaces (s : pystr) :
  Forall (fun c => is_space c = true) s -> lstrip s = [].
Proof. induction 1 as [|c s Hc _ IH]; simpl; [|rewrite Hc]; auto. Qed.

(** Text made of filler alone is empty once punctuation is deleted and
    white space is stripped. *)
Lemma strip_filler (s : pystr) :
  made_of [] s -> strip (remove_punctuation s) = [].
Proof.
  intros H. unfold strip. rewrite lstrip_spaces; [reflexivity|].
  unfold remove_punctuation.
  induction H as [|w rest [] _ _|c rest Hc _ IH]; cbn [filter].
  - constructor.
  - unfold is_filler in Hc. destruct (is_punctuation c); cbn [negb].
    + exact IH.
    + constructor; [exact Hc|exact IH].
Qed.

(** The last rule removes every text made of generic words and
    filler. *)
Lemma generic_words_stripped (x : pystr) :
  made_of generic_words x ->
  strip (remove_punctuation
           (fold_left (fun s word => replace word s) generic_words x))
  = [].
Proof.
  intros H. apply strip_filler. unfold generic_words in *.
  cbn [fold_left].
  repeat (apply replace_made_of; [reflexivity|reflexivity|]).
  exact H.
Qed.

Lemma should_remove_generic (s : pystr) :
  generic_only s -> should_remove_subject s = true.
Proof.
  intros H. apply generic_only_made_of, generic_words_stripped in H.
  unfold should_remove_subject. cbv zeta.
  do 5 match goal with
       | |- (if ?c then true else _) = true =>
           destruct c; [reflexivity|]
       end.
  rewrite H. reflexivity.
Qed.

Lemma filter_subjects_kept (b : book) (s : pystr) :
  In s (filter_subjects b) -> should_remove_subject s = false.
Proof.
  rewrite filter_subjects_filter, filter_In.
  intros [_ H]. now apply negb_true_iff in H.
Qed.

(** C10.  A subject made only of the phrases "science fiction",
    "science-fiction", "fiction", "space opera" and "general" in any
    letter case, of [string.punctuation] characters and of white space
    is removed; no such subject, and in particular no empty subject, is
    returned by [filter_subjects]. *)
Theorem generic_subjects_removed :
  (forall s, generic_only s ->
             should_remove_subject s = true
             /\ forall b, ~ In s (filter_subjects b))
  /\ should_remove_subject [] = true
  /\ forall b, ~ In [] (filter_subjects b).
Proof.
  assert (H : forall s, generic_only s ->
                        should_remove_subject s = true
                        /\ forall b, ~ In s (filter_subjects b)).
  { intros s Hs. pose proof (should_remove_generic s Hs) as Hr.
    split; [exact Hr|]. intros b Hin.
    apply filter_subjects_kept in Hin. congruence. }
  split; [exact H|]. split; [reflexivity|].
  exact (proj2 (H [] generic_nil)).
Qed.

Lemma generic_subjects_removed_witness :
  generic_only (str "Science Fiction, General")
  /\ should_remove_subject (str "Science Fiction, General") = true
  /\ ~ In (str "Science Fiction, General")
          (filter_subjects
             (tagged [str "Science Fiction, General"; GALACTIC] None)).
Proof.
  assert (G : generic_only (str "Science Fiction, General")).
  { change (str "Science Fiction, General")
      with (str "Science Fiction" ++ 44 :: 32 :: str "General" ++ []).
    apply generic_word; [left; reflexivity|].
    apply generic_punct; [reflexivity|].
    apply generic_space; [reflexivity|].
    apply generic_word; [do 4 right; left; reflexivity|].
    apply generic_nil. }
  split; [exact G|].
  destruct (proj1 generic_subjects_removed _ G) as [H1 H2].
  split; [exact H1|apply H2].
Defined.

(** * Further properties *)

(** ** Subject filter: the marker rules *)

Lemma icontains_contains_lower (kw x : pystr) :
  icontains kw x -> contains kw (lower x) = true.
Proof.
  intros (u & w & v & -> & <-). apply contains_iff.
  exists (lower u), (lower v). now rewrite !lower_app.
Qed.

Lemma marker_found_removed (s m : pystr) :
  In m removal_markers ->
  contains m (lower s) = true -> should_remove_subject s = true.
Proof.
  intros Hm Hc. unfold should_remove_subject. cbv zeta.
  repeat match goal with
         | |- context [contains (str ?m) (lower s)] =>
             destruct (contains (str m) (lower s)) eqn:?;
             [reflexivity|]
         end.
  exfalso. unfold removal_markers in Hm. cbn [In] in Hm.
  repeat (destruct Hm as [<-|Hm]; [congruence|]). contradiction.
Qed.

(** X1.  A subject in which one of the markers "(fictitious
    character)", "(imaginary place)", "nyt:", "new york times",
    "hugo award", "hugo_award" or "award:" occurs anywhere, in any
    letter case, is removed. *)
Theorem marker_subjects_removed (s m : pystr) :
  In m removal_markers -> icontains m s ->
  should_remove_subject s = true.
Proof.
  intros Hm Hi. apply (marker_found_removed s m Hm).
  now apply icontains_contains_lower.
Qed.

Lemma marker_subjects_removed_witness :
  should_remove_subject (str "Dune: HUGO AWARD winner") = true.
Proof.
  apply (marker_subjects_removed _ (str "hugo award")).
  - do 4 right. left. reflexivity.
  - exists (str "Dune: "), (str "HUGO AWARD"), (str " winner").
    split; reflexivity.
Defined.

(** ** Subject filter: what the last rule leaves *)

(** Deleting the occurrences of a word deletes no code point that the
    word does not hold. *)
Lemma replace_keeps (old s : pystr) (c : code_point) :
  ~ In c old -> In c s -> In c (replace old s).
Proof.
  intros Hold. destruct old as [|o old]; [trivial|]. cbn [replace].
  remember (List.length s) as n eqn:Hn.
  revert s Hn. induction n as [n IH] using lt_wf_ind. intros s Hn Hin.
  destruct s as [|d s]; [contradiction|].
  destruct (startswith (o :: old) (d :: s)) eqn:E.
  - apply startswith_iff in E as [rest E]. rewrite E in *.
    rewrite replace_from_match.
    apply (IH (List.length rest)); [|reflexivity|].
    + rewrite Hn, length_app. simpl. lia.
    + apply in_app_or in Hin as [Hin|Hin]; [contradiction|exact Hin].
  - cbn [replace_from]. rewrite E.
    destruct Hin as [->|Hin]; [now left|right].
    apply (IH (List.length s)); [subst n; simpl; lia|reflexivity|exact Hin].
Qed.

Lemma replace_all_keeps (ws : list pystr) (s : pystr) (c : code_point) :
  (forall w, In w ws -> ~ In c w) -> In c s ->
  In c (fold_left (fun s word => replace word s) ws s).
Proof.
  revert s; induction ws as [|w ws IH]; intros s Hws Hin; [exact Hin|].
  cbn [fold_left]. apply IH.
  - intros w' Hw'. apply Hws. now right.
  - apply replace_keeps; [apply Hws; now left|exact Hin].
Qed.

Lemma lstrip_keeps (s : pystr) (c : code_point) :
  is_space c = false -> In c s -> In c (lstrip s).
Proof.
  intros Hc. induction s as [|d s IH]; [trivial|].
  cbn [lstrip]. destruct (is_space d) eqn:E; [|trivial].
  intros [->|Hin]; [congruence|auto].
Qed.

Lemma strip_keeps (s : pystr) (c : code_point) :
  is_space c = false -> In c s -> In c (strip s).
Proof.
  intros Hc Hin. unfold strip, rstrip. apply in_rev.
  rewrite rev_involutive. apply lstrip_keeps; [exact Hc|].
  apply -> in_rev. now apply lstrip_keeps.
Qed.

(** X2.  A subject whose lowercase form holds none of the markers and
    holds a code point that is neither punctuation, nor white space,
    nor a code point of one of the five generic words (a digit, say, or
    the letter w) is kept. *)
Theorem foreign_character_kept (s : pystr) (c : code_point) :
  (forall m, In m removal_markers -> contains m (lower s) = false) ->
  In c (lower s) ->
  is_filler c = false ->
  (forall w, In w generic_words -> ~ In c w) ->
  should_remove_subject s = false.
Proof.
  intros Hm Hin Hf Hw. unfold should_remove_subject. cbv zeta.
  unfold removal_markers in Hm.
  rewrite !Hm by (cbn [In]; tauto).
  rewrite fiction_tag_test_never_holds. cbn [orb].
  unfold is_filler in Hf. apply orb_false_iff in Hf as [Hp Hs].
  assert (H : In c (strip (remove_punctuation
                (fold_left (fun s word => replace word s) generic_words
                           (lower s))))).
  { apply strip_keeps; [exact Hs|]. unfold remove_punctuation.
    apply filter_In. split; [|now rewrite Hp].
    now apply replace_all_keeps. }
  destruct (strip _); [contradiction|reflexivity].
Qed.

Lemma foreign_character_kept_witness :
  should_remove_subject (str "Science fiction, 2001") = false.
Proof.
  apply (foreign_character_kept _ 50).
  - intros m Hm. unfold removal_markers in Hm. cbn [In] in Hm.
    repeat (destruct Hm as [<-|Hm]; [reflexivity|]). contradiction.
  - vm_compute. tauto.
  - reflexivity.
  - intros w Hw. unfold generic_words in Hw. cbn [In] in Hw.
    repeat (destruct Hw as [<-|Hw];
            [vm_compute; intuition discriminate|]).
    contradiction.
Defined.

(** ** Filtering the subjects of a record, again *)

(** X3.  Filtering is idempotent: a record that carries the filtered
    tags of another gives those same tags; and a tag is returned
    exactly when the record lists it and the filter keeps it. *)
Theorem filter_subjects_idempotent (b : book) :
  (forall t y,
      filter_subjects
        {| title := t; subject := Some (filter_subjects b);
           first_publish_year := y |}
      = filter_subjects b)
  /\ (forall s,
         In s (filter_subjects b)
         <-> In s (get_default (subject b) [])
             /\ should_remove_subject s = false).
Proof.
  split.
  - intros t y. rewrite (filter_subjects_filter {| title := t |}).
    cbn [subject get_default]. rewrite (filter_subjects_filter b).
    induction (get_default (subject b) []) as [|s l IH]; [reflexivity|].
    cbn [filter]. destruct (should_remove_subject s) eqn:E; cbn [negb].
    + exact IH.
    + cbn [filter]. rewrite E. cbn [negb]. now rewrite IH.
  - intros s. rewrite filter_subjects_filter, filter_In, negb_true_iff.
    reflexivity.
Qed.

Lemma filter_subjects_idempotent_witness :
  In GALACTIC
     (filter_subjects (tagged [str "Science Fiction"; GALACTIC] None)).
Proof.
  apply (proj2 (filter_subjects_idempotent _)).
  split; [right; left; reflexivity|reflexivity].
Defined.

(** ** Classifier and letter case *)

(** X4.  A record whose title and tags are Basic Latin text falls in
    the same group when the title and the tags are put in uppercase. *)
Theorem classify_upper_ascii (b : book) :
  ascii_book b -> classify (upper_book b) = classify b.
Proof.
  intros [Ht Hs]. unfold classify, is_star_wars_book, upper_book.
  cbn [title subject].
  assert (Et : lower (get_default (option_map upper (title b)) [])
               = lower (get_default (title b) [])).
  { destruct (title b) as [t|]; [|reflexivity].
    cbn [option_map get_default] in *. now apply lower_upper_ascii. }
  assert (Es : map lower
                 (get_default (option_map (map upper) (subject b)) [])
               = map lower (get_default (subject b) [])).
  { destruct (subject b) as [l|]; [|reflexivity].
    cbn [option_map get_default] in *. rewrite map_map.
    apply map_ext_in. intros s Hin. apply lower_upper_ascii.
    rewrite Forall_forall in Hs. now apply Hs. }
  now rewrite Et, Es.
Qed.

Lemma classify_upper_ascii_witness :
  classify (upper_book thrawn) = classify thrawn.
Proof.
  apply classify_upper_ascii. split.
  - apply is_ascii_str_dec. reflexivity.
  - constructor.
Defined.

(** ** Aggregator: where the years come from *)

(** X5.  The loop over the records keeps [subject_data] well formed:
    its keys are distinct and kept by the filter, each count is the
    length of the year list and is at least 1, and every year in a year
    list is the non-zero year of a record that lists the subject among
    its kept tags. *)
Theorem collect_invariant (books : list book) :
  NoDup (keys (collect books))
  /\ forall s data,
      In (s, data) (collect books) ->
      Running.count data = List.length (Running.years data)
      /\ (1 <= Running.count data)%nat
      /\ should_remove_subject s = false
      /\ Forall
           (fun y =>
              y <> 0%Z
              /\ exists b, In b books
                           /\ first_publish_year b = Some y
                           /\ In s (filter_subjects b))
           (Running.years data).
Proof.
  split; [apply NoDup_keys_collect|]. intros s data Hin.
  apply collect_entries in Hin as [-> Hne].
  cbn [Running.count Running.years]. unfold occurrences.
  assert (Hall : forall y, In y (contributions s books) ->
                 y <> 0%Z
                 /\ exists b, In b books
                              /\ first_publish_year b = Some y
                              /\ In s (filter_subjects b)).
  { intros y Hy. apply contributions_In in Hy as (b & Hb & Hu & Hs).
    apply usable_year_Some in Hu as [Hu H0]. eauto. }
  split; [reflexivity|]. split; [|split].
  - destruct (contributions s books); [contradiction|simpl; lia].
  - destruct (contributions s books) as [|y ys]; [contradiction|].
    destruct (Hall y (or_introl eq_refl)) as (_ & b & _ & _ & Hs).
    exact (filter_subjects_kept b s Hs).
  - apply Forall_forall. exact Hall.
Qed.

Lemma collect_invariant_witness :
  exists data,
    In (GALACTIC, data) (collect trilogy)
    /\ Running.count data = List.length (Running.years data)
    /\ should_remove_subject GALACTIC = false.
Proof.
  destruct (collect_invariant trilogy) as [_ H].
  assert (Hin : In (GALACTIC,
                    {| Running.count := 3;
                       Running.years := [1977; 1980; 1983]%Z |})
                   (collect trilogy)) by (left; reflexivity).
  destruct (H _ _ Hin) as (H1 & _ & H3 & _).
  eexists. split; [exact Hin|]. split; [exact H1|exact H3].
Defined.

(** X6.  A result of [analyze_subjects] never reports a subject the
    filter removes, and reports no subject twice; the [min_year] and
    [max_year] of an entry are non-zero years of records of the input
    that list the subject among their kept tags. *)
Theorem result_entries_come_from_records (books : list book)
  (r : dict SubjectStat) :
  analyze_subjects books = Some r ->
  NoDup (keys r)
  /\ forall s st,
      In (s, st) r ->
      should_remove_subject s = false
      /\ min_year st <> 0%Z /\ max_year st <> 0%Z
      /\ (exists b, In b books
                    /\ first_publish_year b = Some (min_year st)
                    /\ In s (filter_subjects b))
      /\ (exists b, In b books
                    /\ first_publish_year b = Some (max_year st)
                    /\ In s (filter_subjects b)).
Proof.
  intros Hr.
  destruct (analyze_subjects_lookup books r Hr) as (Hnd & _ & _).
  split; [exact Hnd|]. intros s st Hin.
  destruct (result_entry books r s st Hr Hin) as [_ Hs].
  apply summary_spec in Hs as (_ & Hmin & Hmax & _).
  apply contributions_In in Hmin as (b1 & Hb1 & Hu1 & Hs1).
  apply contributions_In in Hmax as (b2 & Hb2 & Hu2 & Hs2).
  apply usable_year_Some in Hu1 as [Hu1 H1].
  apply usable_year_Some in Hu2 as [Hu2 H2].
  split; [exact (filter_subjects_kept b1 s Hs1)|]. eauto 10.
Qed.

Lemma result_entries_come_from_records_witness :
  should_remove_subject GALACTIC = false
  /\ exists b, In b trilogy
               /\ first_publish_year b = Some 1977%Z
               /\ In GALACTIC (filter_subjects b).
Proof.
  destruct (result_entries_come_from_records trilogy _ analyze_trilogy)
    as [_ H].
  destruct (H GALACTIC
              {| count := 3; min_year := 1977%Z; max_year := 1983%Z;
                 avg_year := Qmake 3960 2 |})
    as (H1 & _ & _ & H4 & _); [left; reflexivity|].
  split; [exact H1|exact H4].
Defined.

(** ** Aggregator: the order and the number of the records *)

Lemma py_min_iff (ys : list Z) (m : Z) :
  py_min ys = Some m <-> In m ys /\ Forall (fun y => (m <= y)%Z) ys.
Proof.
  destruct ys as [|y ys].
  - split; [discriminate|intros [[] _]].
  - cbn [py_min]. destruct (fold_min_spec ys y) as (Hin & Hle & Hall).
    split.
    + intros [= <-]. split; [exact Hin|]. now constructor.
    + intros [Hm Hm']. f_equal.
      rewrite Forall_forall in Hm'. specialize (Hm' _ Hin). cbv beta in Hm'.
      assert ((fold_left Z.min ys y <= m)%Z); [|lia].
      destruct Hm as [<-|Hm]; [exact Hle|].
      rewrite Forall_forall in Hall. now apply Hall.
Qed.

Lemma py_max_iff (ys : list Z) (m : Z) :
  py_max ys = Some m <-> In m ys /\ Forall (fun y => (y <= m)%Z) ys.
Proof.
  destruct ys as [|y ys].
  - split; [discriminate|intros [[] _]].
  - cbn [py_max]. destruct (fold_max_spec ys y) as (Hin & Hle & Hall).
    split.
    + intros [= <-]. split; [exact Hin|]. now constructor.
    + intros [Hm Hm']. f_equal.
      rewrite Forall_forall in Hm'. specialize (Hm' _ Hin). cbv beta in Hm'.
      assert ((m <= fold_left Z.max ys y)%Z); [|lia].
      destruct Hm as [<-|Hm]; [exact Hle|].
      rewrite Forall_forall in Hall. now apply Hall.
Qed.

Lemma py_min_perm (ys ys' : list Z) :
  Permutation ys ys' -> py_min ys = py_min ys'.
Proof.
  intros Hp. destruct (py_min ys) as [m|] eqn:E.
  - symmetry. apply py_min_iff. apply py_min_iff in E as [Hin Hall].
    split; [now apply (Permutation_in _ Hp)|].
    now apply (Permutation_Forall Hp).
  - destruct ys; [|discriminate]. now apply Permutation_nil in Hp as ->.
Qed.

Lemma py_max_perm (ys ys' : list Z) :
  Permutation ys ys' -> py_max ys = py_max ys'.
Proof.
  intros Hp. destruct (py_max ys) as [m|] eqn:E.
  - symmetry. apply py_max_iff. apply py_max_iff in E as [Hin Hall].
    split; [now apply (Permutation_in _ Hp)|].
    now apply (Permutation_Forall Hp).
  - destruct ys; [|discriminate]. now apply Permutation_nil in Hp as ->.
Qed.

Lemma summary_perm (ys ys' : list Z) :
  Permutation ys ys' -> summary ys = summary ys'.
Proof.
  intros Hp. unfold summary.
  now rewrite (py_min_perm _ _ Hp), (py_max_perm _ _ Hp),
    (Permutation_length Hp).
Qed.

Lemma contributions_perm (s : pystr) (books books' : list book) :
  Permutation books books' ->
  Permutation (contributions s books) (contributions s books').
Proof. intros Hp. unfold contributions. now apply Permutation_flat_map. Qed.

(** X7.  The statistics do not depend on the order of the records: if
    [analyze_subjects] returns on an input, it returns on every
    reordering of it, and the two results give every subject the same
    entry or no entry. *)
Theorem analyze_subjects_order_independent (books books' : list book)
  (r : dict SubjectStat) :
  Permutation books books' ->
  analyze_subjects books = Some r ->
  exists r',
    analyze_subjects books' = Some r'
    /\ forall s, dict_get r s = dict_get r' s.
Proof.
  intros Hp Hr.
  destruct (analyze_subjects_lookup books r Hr) as (_ & Hsum & Hget).
  assert (Hc : forall s,
             occurrences s books' = occurrences s books
             /\ summary (contributions s books')
                = summary (contributions s books)).
  { intros s. pose proof (contributions_perm s _ _ Hp) as Hc.
    unfold occurrences.
    now rewrite (Permutation_length Hc), (summary_perm _ _ Hc). }
  destruct (analyze_subjects_returns books') as [r' Hr'].
  { intros s H3. destruct (Hc s) as [Ho Hs]. rewrite Hs.
    apply Hsum. lia. }
  exists r'. split; [exact Hr'|]. intros s.
  destruct (analyze_subjects_lookup books' r' Hr') as (_ & _ & Hget').
  destruct (Hc s) as [Ho Hs]. now rewrite Hget, Hget', Ho, Hs.
Qed.

Lemma analyze_subjects_order_independent_witness :
  exists r',
    analyze_subjects (rev trilogy) = Some r'
    /\ dict_get r' GALACTIC
       = Some {| count := 3; min_year := 1977%Z; max_year := 1983%Z;
                 avg_year := Qmake 3960 2 |}.
Proof.
  destruct (analyze_subjects_order_independent trilogy (rev trilogy) _
              (Permutation_rev trilogy) analyze_trilogy)
    as (r' & Hr' & H).
  exists r'. split; [exact Hr'|]. rewrite <- H. reflexivity.
Defined.

Lemma summary_app (a b : list Z) (st st' : SubjectStat) :
  summary a = Some st ->
  summary (a ++ b) = Some st' ->
  count st' = (count st + List.length b)%nat
  /\ (min_year st' <= min_year st)%Z
  /\ (max_year st <= max_year st')%Z.
Proof.
  intros Hs E.
  apply summary_spec in Hs as (Hc & Hmin & Hmax & _).
  apply summary_spec in E as (Hc' & _ & _ & Hall' & _).
  rewrite Forall_forall in Hall'.
  pose proof (Hall' _ (in_or_app a b _ (or_introl Hmin))) as H1.
  pose proof (Hall' _ (in_or_app a b _ (or_introl Hmax))) as H2.
  cbv beta in *. rewrite Hc', Hc, length_app. repeat split; lia.
Qed.

(** X8.  Reading more records never loses a subject: when
    [analyze_subjects] returns on [books] and on [books ++ more], a
    subject reported for [books] is reported for [books ++ more], its
    count grown by the number of its listings in [more], its
    [min_year] not later and its [max_year] not earlier. *)
Theorem analyze_subjects_more_records (books more : list book)
  (r r' : dict SubjectStat) :
  analyze_subjects books = Some r ->
  analyze_subjects (books ++ more) = Some r' ->
  forall s st,
    dict_get r s = Some st ->
    exists st',
      dict_get r' s = Some st'
      /\ count st' = (count st + occurrences s more)%nat
      /\ (min_year st' <= min_year st)%Z
      /\ (max_year st <= max_year st')%Z.
Proof.
  intros Hr Hr' s st Hs.
  destruct (analyze_subjects_lookup books r Hr) as (_ & _ & Hget).
  destruct (analyze_subjects_lookup (books ++ more) r' Hr')
    as (_ & Hsum' & Hget').
  rewrite Hget in Hs.
  destruct (3 <=? occurrences s books)%nat eqn:E3; [|discriminate].
  apply Nat.leb_le in E3.
  assert (H3' : (3 <= occurrences s (books ++ more))%nat).
  { unfold occurrences in *. rewrite contributions_app, length_app. lia. }
  destruct (Hsum' s H3') as [st' Hst'].
  exists st'. split.
  - rewrite Hget'. apply Nat.leb_le in H3'. now rewrite H3'.
  - rewrite contributions_app in Hst'.
    exact (summary_app _ _ _ _ Hs Hst').
Qed.

Lemma analyze_subjects_more_records_witness :
  exists r' st',
    analyze_subjects (trilogy ++ repeated_tag) = Some r'
    /\ dict_get r' GALACTIC = Some st'
    /\ count st' = 6%nat.
Proof.
  assert (Hr' : analyze_subjects (trilogy ++ repeated_tag)
                = Some [(GALACTIC,
                         {| count := 6; min_year := 1977%Z;
                            max_year := 1983%Z;
                            avg_year := Qmake 3960 2 |})])
    by reflexivity.
  destruct (analyze_subjects_more_records trilogy repeated_tag _ _
              analyze_trilogy Hr' GALACTIC
              {| count := 3; min_year := 1977%Z; max_year := 1983%Z;
                 avg_year := Qmake 3960 2 |} eq_refl)
    as (st' & Hst' & Hc & _).
  eexists. exists st'. split; [exact Hr'|]. split; [exact Hst'|exact Hc].
Defined.

(** ** Aggregator: the order of the result *)

Lemma keys_bump (sd : dict Running.t) (s : pystr) (year : Z) :
  keys (bump sd s year) = note_subject (keys sd) s.
Proof.
  unfold bump, note_subject. rewrite keys_dict_set.
  destruct (dict_get sd s) eqn:E.
  - apply dict_get_In, (in_map fst) in E.
    now rewrite (proj2 (occ_existsb s (keys sd)) E).
  - apply dict_get_None in E.
    destruct (existsb (pystr_eqb s) (keys sd)) eqn:E'; [|reflexivity].
    apply occ_existsb in E'. contradiction.
Qed.

Lemma keys_bump_all (year : Z) (l : list pystr) (sd : dict Running.t) :
  keys (fold_left (fun sd s => bump sd s year) l sd)
  = fold_left note_subject l (keys sd).
Proof.
  revert sd; induction l as [|s l IH]; intros sd; [reflexivity|].
  cbn [fold_left]. now rewrite IH, keys_bump.
Qed.

Lemma keys_steps (books : list book) (sd : dict Running.t) :
  keys (fold_left step_book books sd)
  = fold_left note_subject (listings books) (keys sd).
Proof.
  revert sd; induction books as [|b books IH]; intros sd; [reflexivity|].
  cbn [fold_left]. rewrite IH.
  unfold listings. cbn [flat_map]. rewrite fold_left_app. f_equal.
  unfold step_book, usable_year.
  destruct (first_publish_year b) as [year|]; [|reflexivity].
  destruct (year =? 0)%Z; [reflexivity|]. apply keys_bump_all.
Qed.

Lemma keys_filter_count (books : list book) (items : dict Running.t) :
  (forall k d, In (k, d) items -> Running.count d = occurrences k books) ->
  keys (filter (fun it => (3 <=? Running.count (snd it))%nat) items)
  = filter (fun s => (3 <=? occurrences s books)%nat) (keys items).
Proof.
  induction items as [|[k d] items IH]; intros H; [reflexivity|].
  cbn [filter keys map fst snd].
  rewrite (H k d (or_introl eq_refl)).
  assert (IH' := IH (fun k0 d0 H0 => H k0 d0 (or_intror H0))).
  unfold keys in IH'.
  destruct (3 <=? occurrences k books)%nat; cbn [map fst]; now rewrite IH'.
Qed.

(** X9.  A result of [analyze_subjects] lists the reported subjects in
    the order in which the records first list them: its keys are the
    distinct kept tags of the records with a usable year, in order of
    first appearance, less those listed fewer than three times. *)
Theorem analyze_subjects_key_order (books : list book)
  (r : dict SubjectStat) :
  analyze_subjects books = Some r ->
  keys r
  = filter (fun s => (3 <=? occurrences s books)%nat)
           (first_seen (listings books)).
Proof.
  intros Hr.
  destruct (summarize_loop (collect books) [] r (NoDup_keys_collect books)
              (collect_counts books) (fun k _ H => H) Hr)
    as (_ & Hk & _).
  rewrite Hk. cbn [keys map app].
  rewrite (keys_filter_count books).
  - unfold collect. now rewrite keys_steps.
  - intros k d Hin. apply collect_entries in Hin as [-> _]. reflexivity.
Qed.

Lemma analyze_subjects_key_order_witness :
  keys [(GALACTIC, {| count := 3; min_year := 1977%Z; max_year := 1983%Z;
                      avg_year := Qmake 3960 2 |})]
  = filter (fun s => (3 <=? occurrences s trilogy)%nat)
           (first_seen (listings trilogy)).
Proof. exact (analyze_subjects_key_order trilogy _ analyze_trilogy). Defined.

(** ** Presentation: the chart of an aggregation *)

Lemma sorted_by_avg_fixed (l : list (pystr * SubjectStat)) :
  StronglySorted avg_le l -> sorted_by_avg l = l.
Proof.
  induction 1 as [|x l Hs IH Hall]; [reflexivity|].
  cbn [sorted_by_avg fold_right]. fold (sorted_by_avg l). rewrite IH.
  destruct l as [|y l]; [reflexivity|].
  cbn [insert_by_avg]. inversion Hall as [|? ? Hxy _]; subst.
  now rewrite (proj2 (avg_leb_le x y) Hxy).
Qed.

Lemma create_bar_chart_rows (sd : dict SubjectStat)
  (title filename : pystr) :
  sd <> [] ->
  create_bar_chart sd title filename
  = [SaveFig filename (chart_of (sorted_by_avg sd) title);
     Print (str "Saved chart to " ++ filename)].
Proof.
  intros Hne. unfold create_bar_chart.
  destruct (sorted_by_avg sd) as [|r rows] eqn:E.
  - exfalso. apply Hne. apply Permutation_nil.
    rewrite <- E. symmetry. apply sorted_by_avg_perm.
  - unfold chart_of. now rewrite !map_combine_map.
Qed.

(** X10.  A result that is already in ascending order of [avg_year] is
    drawn row for row in its own order. *)
Theorem create_bar_chart_sorted_input (sd : dict SubjectStat)
  (title filename : pystr) :
  sd <> [] -> StronglySorted avg_le sd ->
  create_bar_chart sd title filename
  = [SaveFig filename (chart_of sd title);
     Print (str "Saved chart to " ++ filename)].
Proof.
  intros Hne Hs. rewrite (create_bar_chart_rows _ _ _ Hne).
  now rewrite (sorted_by_avg_fixed _ Hs).
Qed.

Lemma create_bar_chart_sorted_input_witness :
  create_bar_chart (rev two_subjects) (str "Trends") (str "out.png")
  = [SaveFig (str "out.png") (chart_of (rev two_subjects) (str "Trends"));
     Print (str "Saved chart to " ++ str "out.png")].
Proof.
  apply create_bar_chart_sorted_input; [discriminate|].
  repeat constructor. unfold avg_le. cbn. unfold Qle. cbn. lia.
Defined.

(** Two sorted lists with the same elements are equal when entries of
    equal score are equal. *)
Lemma sorted_unique (l1 l2 : list (pystr * SubjectStat)) :
  StronglySorted avg_le l1 -> StronglySorted avg_le l2 ->
  Permutation l1 l2 ->
  (forall a b, In a l1 -> In b l1 ->
               (avg_year (snd a) == avg_year (snd b))%Q -> a = b) ->
  l1 = l2.
Proof.
  intros H1. revert l2. induction H1 as [|x l1 Hs1 IH Hall1];
    intros l2 H2 Hp Hd.
  - now apply Permutation_nil in Hp.
  - destruct H2 as [|y l2 Hs2 Hall2].
    { apply Permutation_sym, Permutation_nil in Hp. discriminate. }
    assert (Exy : x = y).
    { assert (Hx : In x (y :: l2))
        by (apply (Permutation_in _ Hp); now left).
      assert (Hy : In y (x :: l1))
        by (apply (Permutation_in _ (Permutation_sym Hp)); now left).
      destruct Hx as [->|Hx]; [reflexivity|].
      destruct Hy as [->|Hy]; [reflexivity|].
      rewrite Forall_forall in Hall1, Hall2.
      apply Hd; [now left|now right|].
      apply Qle_antisym; [exact (Hall1 _ Hy)|exact (Hall2 _ Hx)]. }
    subst y. f_equal. apply IH; [exact Hs2| |].
    + exact (Permutation_cons_inv Hp).
    + intros a b Ha Hb. apply Hd; now right.
Qed.

(** X11.  When no two entries have the same [avg_year], the chart does
    not depend on the order in which the result holds its entries. *)
Theorem create_bar_chart_order_independent (sd sd' : dict SubjectStat)
  (title filename : pystr) :
  Permutation sd sd' ->
  (forall a b, In a sd -> In b sd ->
               (avg_year (snd a) == avg_year (snd b))%Q -> a = b) ->
  create_bar_chart sd title filename
  = create_bar_chart sd' title filename.
Proof.
  intros Hp Hd.
  assert (E : sorted_by_avg sd = sorted_by_avg sd').
  { apply sorted_unique; try apply sorted_by_avg_sorted.
    - rewrite <- (sorted_by_avg_perm sd), <- (sorted_by_avg_perm sd').
      exact Hp.
    - intros a b Ha Hb. apply Hd.
      + apply (Permutation_in _ (Permutation_sym (sorted_by_avg_perm sd))).
        exact Ha.
      + apply (Permutation_in _ (Permutation_sym (sorted_by_avg_perm sd))).
        exact Hb. }
  destruct sd as [|x sd].
  - now apply Permutation_nil in Hp as ->.
  - assert (Hne' : sd' <> []).
    { intros ->. apply Permutation_sym, Permutation_nil in Hp.
      discriminate. }
    rewrite !create_bar_chart_rows by (exact Hne' || discriminate).
    now rewrite E.
Qed.

Lemma create_bar_chart_order_independent_witness :
  create_bar_chart two_subjects (str "Trends") (str "out.png")
  = create_bar_chart (rev two_subjects) (str "Trends") (str "out.png").
Proof.
  apply create_bar_chart_order_independent.
  - apply Permutation_rev.
  - intros a b Ha Hb. cbn in Ha, Hb.
    destruct Ha as [<-|[<-|[]]]; destruct Hb as [<-|[<-|[]]];
      try reflexivity; intros H; vm_compute in H; discriminate.
Defined.

Lemma Forall2_map_same {A B C : Type} (P : B -> C -> Prop)
  (f : A -> B) (g : A -> C) (l : list A) :
  (forall x, In x l -> P (f x) (g x)) ->
  Forall2 P (map f l) (map g l).
Proof.
  induction l as [|x l IH]; intros H; cbn [map]; constructor.
  - apply H. now left.
  - apply IH. intros y Hy. apply H. now right.
Qed.

(** X12.  The chart of a result of [analyze_subjects] has one row per
    reported subject, no two rows with the same label, no bar of
    negative width, every count label to the right of its bar, and
    every count at least 3; a result that reports nothing gives the
    message line alone. *)
Theorem chart_of_aggregation (books : list book) (r : dict SubjectStat)
  (title filename : pystr) :
  analyze_subjects books = Some r ->
  (r = []
   /\ create_bar_chart r title filename
      = [Print (str "No subjects to plot for " ++ title)])
  \/ exists fig,
      create_bar_chart r title filename
      = [SaveFig filename fig;
         Print (str "Saved chart to " ++ filename)]
      /\ List.length (yticklabels fig) = List.length r
      /\ NoDup (yticklabels fig)
      /\ Forall (fun bar => (0 <= snd bar)%Z) (bars fig)
      /\ Forall (fun lbl => (3 <= snd lbl)%nat) (count_labels fig)
      /\ Forall2 (fun bar lbl => (fst bar + snd bar < fst lbl)%Z)
                 (bars fig) (count_labels fig).
Proof.
  intros Hr.
  destruct (analyze_subjects_lookup books r Hr) as (Hnd & _ & _).
  assert (Hcase : r = [] \/ r <> [])
    by (destruct r; [now left|right; discriminate]).
  destruct Hcase as [->|Hne]; [left; split; reflexivity|right].
  exists (chart_of (sorted_by_avg r) title).
  split; [now apply create_bar_chart_rows|].
  pose proof (sorted_by_avg_perm r) as Hp.
  assert (Hrow : forall row, In row (sorted_by_avg r) ->
                 (min_year (snd row) <= max_year (snd row))%Z
                 /\ (3 <= count (snd row))%nat).
  { intros [s st] Hin.
    apply (Permutation_in _ (Permutation_sym Hp)) in Hin.
    destruct (result_entry books r s st Hr Hin) as [H3 Hs].
    split; [exact (summary_min_le_max _ _ Hs)|].
    apply summary_spec in Hs as (Hc & _). cbn [snd].
    unfold occurrences in H3. lia. }
  cbn [chart_of yticklabels bars count_labels].
  split; [now rewrite length_map, <- (Permutation_length Hp)|].
  split; [apply (Permutation_NoDup (Permutation_map fst Hp)), Hnd|].
  split; [|split].
  - apply Forall_forall. intros bar Hbar.
    apply in_map_iff in Hbar as (row & <- & Hin). cbn [snd].
    destruct (Hrow row Hin) as [Hle _]. lia.
  - apply Forall_forall. intros lbl Hlbl.
    apply in_map_iff in Hlbl as (row & <- & Hin). cbn [snd].
    now destruct (Hrow row Hin).
  - apply Forall2_map_same. intros row _. cbn [fst snd]. lia.
Qed.

Lemma chart_of_aggregation_witness :
  exists fig,
    create_bar_chart
      [(GALACTIC, {| count := 3; min_year := 1977%Z; max_year := 1983%Z;
                     avg_year := Qmake 3960 2 |})]
      (str "Trends") (str "out.png")
    = [SaveFig (str "out.png") fig;
       Print (str "Saved chart to " ++ str "out.png")]
    /\ Forall (fun bar => (0 <= snd bar)%Z) (bars fig).
Proof.
  destruct (chart_of_aggregation trilogy _ (str "Trends") (str "out.png")
              analyze_trilogy)
    as [[E _]|(fig & Hc & _ & _ & Hb & _)]; [discriminate E|].
  exists fig. split; [exact Hc|exact Hb].
Defined.

(** ** Entry point: the two groups *)

Lemma split_books_loop (books sw ot : list book) :
  fold_left
    (fun (lists : list book * list book) b =>
       let (star_wars_books, other_books) := lists in
       if is_star_wars_book b
       then (star_wars_books ++ [b], other_books)
       else (star_wars_books, other_books ++ [b]))
    books (sw, ot)
  = (sw ++ filter is_star_wars_book books,
     ot ++ filter (fun b => negb (is_star_wars_book b)) books).
Proof.
  revert sw ot; induction books as [|b books IH]; intros sw ot.
  - cbn. now rewrite !app_nil_r.
  - cbn [fold_left filter]. destruct (is_star_wars_book b); cbn [negb].
    + now rewrite IH, <- app_assoc.
    + now rewrite IH, <- app_assoc.
Qed.

Lemma filter_split_perm {A : Type} (p : A -> bool) (l : list A) :
  Permutation (filter p l ++ filter (fun x => negb (p x)) l) l.
Proof.
  induction l as [|x l IH]; [constructor|].
  cbn [filter]. destruct (p x); cbn [negb app].
  - now constructor.
  - rewrite <- Permutation_middle. now constructor.
Qed.

(** X13.  [main] puts every record in exactly one of its two lists:
    [star_wars_books] holds the records [is_star_wars_book] accepts and
    [other_books] the rest, each in input order, so the two lengths add
    up to the number of records. *)
Theorem split_books_partition (books : list book) :
  split_books books
  = (filter is_star_wars_book books,
     filter (fun b => negb (is_star_wars_book b)) books)
  /\ Permutation (fst (split_books books) ++ snd (split_books books))
                 books
  /\ (List.length (fst (split_books books))
      + List.length (snd (split_books books))
      = List.length books)%nat
  /\ (forall b, In b (fst (split_books books))
                <-> In b books /\ classify b = primary_franchise)
  /\ (forall b, In b (snd (split_books books))
                <-> In b books /\ classify b = other).
Proof.
  assert (E : split_books books
              = (filter is_star_wars_book books,
                 filter (fun b => negb (is_star_wars_book b)) books))
    by apply (split_books_loop books [] []).
  rewrite E. cbn [fst snd]. split; [reflexivity|].
  pose proof (filter_split_perm is_star_wars_book books) as Hp.
  split; [exact Hp|]. split.
  - rewrite <- length_app. exact (Permutation_length Hp).
  - split; intros b; rewrite filter_In; unfold classify;
      destruct (is_star_wars_book b); cbn [negb];
      intuition discriminate.
Qed.

Lemma split_books_partition_witness :
  In thrawn (fst (split_books [dune; thrawn]))
  /\ In dune (snd (split_books [dune; thrawn])).
Proof.
  destruct (split_books_partition [dune; thrawn]) as (_ & _ & _ & H1 & H2).
  split.
  - apply H1. split; [right; left; reflexivity|reflexivity].
  - apply H2. split; [left; reflexivity|reflexivity].
Defined.

Lemma occurrences_split (p : book -> bool) (s : pystr)
  (books : list book) :
  occurrences s books
  = (occurrences s (filter p books)
     + occurrences s (filter (fun b => negb (p b)) books))%nat.
Proof.
  unfold occurrences.
  rewrite <- length_app, <- contributions_app.
  apply Permutation_length, contributions_perm.
  symmetry. apply filter_split_perm.
Qed.

(** X14.  The two analyses of [main] share out the listings of a
    subject: its listings in the whole input are those in
    [star_wars_books] plus those in [other_books].  So, when the two
    analyses return, neither reports a count above the number of
    listings in the whole input, and a subject listed fewer than three
    times in all is reported by neither. *)
Theorem split_books_listings (books : list book) :
  (forall s,
      occurrences s books
      = (occurrences s (fst (split_books books))
         + occurrences s (snd (split_books books)))%nat)
  /\ forall r_sw r_other,
      analyze_subjects (fst (split_books books)) = Some r_sw ->
      analyze_subjects (snd (split_books books)) = Some r_other ->
      forall s,
        (forall st, dict_get r_sw s = Some st ->
                    (count st <= occurrences s books)%nat)
        /\ (forall st, dict_get r_other s = Some st ->
                       (count st <= occurrences s books)%nat)
        /\ ((occurrences s books < 3)%nat ->
            dict_get r_sw s = None /\ dict_get r_other s = None).
Proof.
  assert (Es : split_books books
               = (filter is_star_wars_book books,
                  filter (fun b => negb (is_star_wars_book b)) books))
    by apply (split_books_loop books [] []).
  rewrite Es. cbn [fst snd]. clear Es.
  set (sw := filter is_star_wars_book books).
  set (ot := filter (fun b => negb (is_star_wars_book b)) books).
  assert (E : forall s, occurrences s books
                        = (occurrences s sw + occurrences s ot)%nat)
    by (intros s; apply occurrences_split).
  split; [exact E|]. intros r1 r2 Hr1 Hr2 s.
  destruct (analyze_subjects_lookup sw r1 Hr1) as (_ & _ & Hg1).
  destruct (analyze_subjects_lookup ot r2 Hr2) as (_ & _ & Hg2).
  assert (Hc : forall l r st,
             (forall s0, dict_get r s0
                         = if (3 <=? occurrences s0 l)%nat
                           then summary (contributions s0 l) else None) ->
             dict_get r s = Some st -> count st = occurrences s l).
  { intros l r st Hg Hs. rewrite Hg in Hs.
    destruct (3 <=? occurrences s l)%nat; [|discriminate].
    now apply summary_spec in Hs as (Hc & _). }
  specialize (E s). split; [|split].
  - intros st Hs. rewrite (Hc sw r1 st Hg1 Hs). lia.
  - intros st Hs. rewrite (Hc ot r2 st Hg2 Hs). lia.
  - intros Hlt. rewrite Hg1, Hg2.
    replace (3 <=? occurrences s sw)%nat with false
      by (symmetry; apply Nat.leb_gt; lia).
    replace (3 <=? occurrences s ot)%nat with false
      by (symmetry; apply Nat.leb_gt; lia).
    split; reflexivity.
Qed.

Lemma split_books_listings_witness :
  occurrences GALACTIC trilogy
  = (occurrences GALACTIC (fst (split_books trilogy))
     + occurrences GALACTIC (snd (split_books trilogy)))%nat
  /\ (3 <= occurrences GALACTIC trilogy)%nat.
Proof.
  destruct (split_books_listings trilogy) as [E H].
  split; [exact (E GALACTIC)|].
  assert (H1 : analyze_subjects (fst (split_books trilogy)) = Some [])
    by reflexivity.
  assert (H2 : analyze_subjects (snd (split_books trilogy))
               = Some [(GALACTIC,
                        {| count := 3; min_year := 1977%Z;
                           max_year := 1983%Z;
                           avg_year := Qmake 3960 2 |})])
    by reflexivity.
  destruct (H _ _ H1 H2 GALACTIC) as (_ & Hc & _).
  exact (Hc _ eq_refl).
Defined.

(** ** Aggregator: the display score *)

Lemma midpoint_between (a b : Z) :
  (a <= b)%Z ->
  (inject_Z a <= Qmake (a + b) 2 /\ Qmake (a + b) 2 <= inject_Z b)%Q.
Proof. intros H. unfold Qle, inject_Z. cbn. lia. Qed.

(** X15.  While the sum of its [min_year] and [max_year] is at most
    2^53 in magnitude, the display score of an entry of the result lies
    between the two, so the key the chart sorts by falls inside the bar
    it draws. *)
Theorem avg_year_within_range (books : list book) (r : dict SubjectStat)
  (s : pystr) (st : SubjectStat) :
  analyze_subjects books = Some r ->
  In (s, st) r ->
  (Z.abs (min_year st + max_year st) <= 2 ^ 53)%Z ->
  (inject_Z (min_year st) <= avg_year st)%Q
  /\ (avg_year st <= inject_Z (max_year st))%Q.
Proof.
  intros Hr Hin Hsmall.
  destruct (result_entry books r s st Hr Hin) as [_ Hs].
  pose proof (summary_min_le_max _ _ Hs) as Hle.
  apply summary_spec in Hs as (_ & _ & _ & _ & Havg).
  rewrite (truediv_2_exact _ Hsmall) in Havg. injection Havg as <-.
  now apply midpoint_between.
Qed.

Lemma avg_year_within_range_witness :
  (inject_Z 1977 <= Qmake 3960 2)%Q /\ (Qmake 3960 2 <= inject_Z 1983)%Q.
Proof.
  apply (avg_year_within_range trilogy _ GALACTIC
           {| count := 3; min_year := 1977%Z; max_year := 1983%Z;
              avg_year := Qmake 3960 2 |} analyze_trilogy).
  - left; reflexivity.
  - cbn. lia.
Defined.

(** ** Aggregator: exceptions *)



